(** * healthcareai.common.model_eval

    A shallow embedding of [src/healthcareai/common/model_eval.py] and the
    properties of its four functions [clfreport],
    [print_regression_metrics], [find_top_three_factors] and [GenerateAUC].

    The module is orchestration around scikit-learn, numpy, matplotlib and
    two helper modules of the package.  Every call that leaves the module is
    recorded as an [event] of a trace and answered by a [Library], a record of
    uninterpreted functions; the control flow, the local variables, the
    indexing and the string formatting of the module itself are modelled as
    written.  Floating-point numbers are modelled by the rationals [Q]
    (rounding, infinities and NaN are outside the model). *)

From Stdlib Require Import String Ascii List Bool Arith Lia ZArith QArith.
From Stdlib Require Import Qabs Permutation Sorted.
Import ListNotations.

Set Warnings "-register-all".

Local Close Scope Q_scope.
Local Open Scope string_scope.
Local Open Scope list_scope.

(** ** Data *)

(** A one-dimensional numeric array or a Python list of numbers. *)
Definition vector := list Q.

(** A pandas DataFrame: [X.columns.values] and the rows of [X.values]. *)
Record DataFrame := mkFrame {
  columns : list string;
  values : list vector
}.

(** Every row has one entry per column. *)
Definition wf_frame (X : DataFrame) : Prop :=
  forall row, In row (values X) -> length row = length (columns X).

(** The [param] dictionary handed to the grid search. *)
Definition param_grid := list (string * vector).

(** Estimator objects.  [Fitted clf X y] is the object [clf] after a
    successful [clf.fit(X, y)]; [fit] mutates and returns [self], so the
    variable that held [clf] holds [Fitted clf X y] afterwards. *)
Inductive estimator :=
| Supplied (name : string)
| LogisticRegression
| LinearRegression
| GridSearchCV (algo : estimator) (param : option param_grid) (cv : Z)
    (scoring : string) (n_jobs : Z)
| Fitted (clf : estimator) (X : DataFrame) (y : vector).

(** Values that reach [print], a metric or a plotting call. *)
Inductive pyval :=
| VNone
| VStr (s : string)
| VNum (q : Q)
| VVec (v : vector)
| VEst (e : estimator)
| VParams (p : list (string * Q))
| VFrame (X : DataFrame)
| VLoc (X : DataFrame) (last_label : Z)
| VList (xs : list pyval)
| VKw (key : string) (v : pyval)
| VFmt (fmt : string) (args : list pyval).

Definition VOpt (o : option vector) : pyval :=
  match o with Some v => VVec v | None => VNone end.

(** ** Effects *)

(** What the module does to the outside, in program order. *)
Inductive event :=
| EPrint (args : list pyval)
| EGridSearchCV (algo : estimator) (param : option param_grid) (cv : Z)
    (scoring : string) (n_jobs : Z)
| EFit (clf : estimator) (X : DataFrame) (y : vector)
| EPredict (method : string) (clf : estimator) (X : DataFrame)
| EMetric (fn : string) (args : list pyval)
| ELoadPickle (file : string)
| ESavePickle (file : string) (obj : estimator)
| EWriteFeatureImportances (importances : vector)
    (col_list : option (list string))
| EPlot (fn : string) (args : list pyval).

(** Exceptions.  [PyException] is the [raise Exception(msg)] statement of the
    module; the next five are raised by the interpreter or by numpy while an
    expression of the module itself is evaluated; [LibraryError] is whatever
    an external call raises. *)
Inductive exn :=
| PyException (msg : string)
| UnboundLocalError (name : string)
| AttributeError (attr : string)
| IndexError
| TypeError
| ValueError
| LibraryError (e : string).

Inductive outcome (A : Type) :=
| Return (a : A)
| Raise (e : exn).
Arguments Return {A} a.
Arguments Raise {A} e.

(** A computation: the events it emitted and how it ended. *)
Definition M (A : Type) : Type := list event * outcome A.

Definition ret {A} (a : A) : M A := ([], Return a).

Definition raise {A} (e : exn) : M A := ([], Raise e).

Definition bind {A B} (m : M A) (f : A -> M B) : M B :=
  match m with
  | (t, Return a) => let (t', r) := f a in (t ++ t', r)
  | (t, Raise e) => (t, Raise e)
  end.

Definition emit (ev : event) : M unit := ([ev], Return tt).

Notation "x <- m ;; k" := (bind m (fun x => k))
  (at level 61, m at next level, right associativity).
Notation "' pat <- m ;; k" := (bind m (fun x => match x with pat => k end))
  (at level 61, pat pattern, m at next level, right associativity).
Notation "m ;;; k" := (bind m (fun _ => k))
  (at level 61, right associativity).

Definition trace {A} (m : M A) : list event := fst m.
Definition result {A} (m : M A) : outcome A := snd m.

(** An external call that returns a value or raises. *)
Definition lift {A} (r : string + A) : M A :=
  match r with
  | inl e => raise (LibraryError e)
  | inr a => ret a
  end.

(** An external call made for its effect. *)
Definition lift_unit (r : option string) : M unit :=
  match r with
  | Some e => raise (LibraryError e)
  | None => ret tt
  end.

Definition print (args : list pyval) : M unit := emit (EPrint args).

(** Reading a local variable that may not have been assigned. *)
Definition local {A} (name : string) (v : option A) : M A :=
  match v with
  | Some a => ret a
  | None => raise (UnboundLocalError name)
  end.

(** ** The world outside the module *)

Class Library := {
  (* estimator methods and attributes *)
  fit_raises : estimator -> DataFrame -> vector -> option string;
  predict_value : estimator -> DataFrame -> string + vector;
  predict_proba_value : estimator -> DataFrame -> string + list vector;
  hasattr : estimator -> string -> bool;
  best_params_ : estimator -> list (string * Q);
  best_estimator_ : estimator -> estimator;
  feature_importances_ : estimator -> vector;
  coef_ : estimator -> vector;
  (* sklearn.metrics *)
  roc_auc_score : option vector -> vector -> string + Q;
  precision_recall_curve :
    option vector -> vector -> string + (vector * vector * vector);
  roc_curve : vector -> vector -> string + (vector * vector * vector);
  auc : vector -> vector -> string + Q;
  average_precision_score : vector -> vector -> string + Q;
  mean_squared_error : option vector -> option vector -> string + Q;
  mean_absolute_error : option vector -> option vector -> string + Q;
  (* math and numpy *)
  math_sqrt : Q -> string + Q;
  np_squeeze : vector -> vector;
  argsort : vector -> list nat;
  (* healthcareai.common.output_utilities and feature_importances *)
  load_pickle_file_value : string -> string + estimator;
  save_object_as_pickle_raises : string -> estimator -> option string;
  write_feature_importances_raises :
    vector -> option (list string) -> option string;
  (* matplotlib.pyplot *)
  plt_raises : string -> list pyval -> option string
}.

Section Model.

Context {L : Library}.

(** *** Calls that leave the module *)

Definition fit (clf : estimator) (X : DataFrame) (y : vector) : M estimator :=
  emit (EFit clf X y) ;;;
  lift_unit (fit_raises clf X y) ;;;
  ret (Fitted clf X y).

Definition predict (clf : estimator) (X : DataFrame) : M vector :=
  emit (EPredict "predict" clf X) ;;;
  lift (predict_value clf X).

Definition predict_proba (clf : estimator) (X : DataFrame) : M (list vector) :=
  emit (EPredict "predict_proba" clf X) ;;;
  lift (predict_proba_value clf X).

Definition metric {A} (fn : string) (args : list pyval) (r : string + A)
  : M A :=
  emit (EMetric fn args) ;;;
  lift r.

Definition load_pickle_file (file : string) : M estimator :=
  emit (ELoadPickle file) ;;;
  lift (load_pickle_file_value file).

Definition save_object_as_pickle (file : string) (obj : estimator) : M unit :=
  emit (ESavePickle file obj) ;;;
  lift_unit (save_object_as_pickle_raises file obj).

Definition write_feature_importances (imp : vector)
  (col_list : option (list string)) : M unit :=
  emit (EWriteFeatureImportances imp col_list) ;;;
  lift_unit (write_feature_importances_raises imp col_list).

Definition plt (fn : string) (args : list pyval) : M unit :=
  emit (EPlot fn args) ;;;
  lift_unit (plt_raises fn args).

(** *** numpy indexing *)

(** [a[:, j]] of a two-dimensional array given by its rows. *)
Definition column (j : nat) (a : list vector) : M vector :=
  if forallb (fun row => Nat.ltb j (length row)) a
  then ret (map (fun row => nth j row 0%Q) a)
  else raise IndexError.

(** [a[i]] *)
Definition index {A} (a : list A) (i : nat) : M A :=
  match nth_error a i with
  | Some x => ret x
  | None => raise IndexError
  end.

(** ** print_regression_metrics and print_classification_metrics *)

Definition print_regression_metrics (y_pred y_pred_class y_test : option vector)
  : M unit :=
  print [VStr "##########################################################"] ;;;
  print [VStr "Model accuracy:"] ;;;
  mse <- metric "mean_squared_error" [VOpt y_test; VOpt y_pred_class]
           (mean_squared_error y_test y_pred_class) ;;
  rmse <- lift (math_sqrt mse) ;;
  print [VStr "\nRMSE error:"; VNum rmse] ;;;
  mae <- metric "mean_absolute_error" [VOpt y_test; VOpt y_pred]
           (mean_absolute_error y_test y_pred) ;;
  print [VStr "\nMean absolute error:"; VNum mae; VStr "\n"] ;;;
  print [VStr "##########################################################"].

Definition print_classification_metrics (pr_auc roc_auc : Q) : M unit :=
  print [VStr "\nMetrics:"] ;;;
  print [VStr "AU_ROC ScoreX:"; VNum roc_auc] ;;;
  print [VStr "\nAU_PR Score:"; VNum pr_auc].

(** ** clfreport *)

(** The three shapes of value [clfreport] returns: [y_pred] alone (line
    123), [(y_pred, roc_auc)] (line 94) and [(y_pred, roc_auc, clf)] (lines
    100 and 106).  [y_pred] is [None] until a prediction is assigned. *)
Inductive clfreport_value :=
| RetPred (y_pred : option vector)
| RetPredAuc (y_pred : option vector) (roc_auc : Q)
| RetPredAucClf (y_pred : option vector) (roc_auc : Q) (clf : estimator).

(** [debug], [tune] and [use_saved_model] are booleans; [roc_auc] is a local
    variable that only the classification branch assigns. *)
Definition clfreport (modeltype : string) (debug : bool) (devcheck : string)
  (algo : estimator) (X_train : DataFrame) (y_train : vector)
  (X_test : DataFrame) (y_test : option vector) (param : option param_grid)
  (cores : Z) (tune : bool) (use_saved_model : bool)
  (col_list : option (list string)) : M clfreport_value :=
  let y_pred_class : option vector := None in
  let y_pred : option vector := None in
  let clf := algo in
  if devcheck =? "yesdev" then
    clf <- (if tune
            then emit (EGridSearchCV algo param 5 "roc_auc" cores) ;;;
                 ret (GridSearchCV algo param 5 "roc_auc" cores)
            else ret clf) ;;
    (if debug
     then print [VStr "\nclf object right before fitting main model:"] ;;;
          print [VEst clf]
     else ret tt) ;;;
    print [VStr "\n"; VEst algo] ;;;
    '(clf, y_pred, roc_auc) <-
      (if modeltype =? "classification" then
         clf <- fit clf X_train y_train ;;
         proba <- predict_proba clf X_test ;;
         col <- column 1 proba ;;
         let y_pred := np_squeeze col in
         roc_auc <- metric "roc_auc_score" [VOpt y_test; VVec y_pred]
                      (roc_auc_score y_test y_pred) ;;
         '(precision, recall, thresholds) <-
           metric "precision_recall_curve" [VOpt y_test; VVec y_pred]
             (precision_recall_curve y_test y_pred) ;;
         pr_auc <- metric "auc" [VVec recall; VVec precision]
                     (auc recall precision) ;;
         print_classification_metrics pr_auc roc_auc ;;;
         ret (clf, Some y_pred, Some roc_auc)
       else if modeltype =? "regression" then
         clf <- fit clf X_train y_train ;;
         y_pred <- predict clf X_test ;;
         print_regression_metrics (Some y_pred) y_pred_class y_test ;;;
         ret (clf, Some y_pred, None)
       else ret (clf, y_pred, None)) ;;
    (if hasattr clf "best_params_" && tune
     then print [VStr "Best hyper-parameters found after tuning:"] ;;;
          print [VParams (best_params_ clf)]
     else print [VStr "No hyper-parameter tuning was done."]) ;;;
    if negb (hasattr clf "feature_importances_")
       && negb (hasattr clf "best_estimator_") then
      roc_auc <- local "roc_auc" roc_auc ;;
      ret (RetPredAuc y_pred roc_auc)
    else if hasattr clf "feature_importances_" then
      write_feature_importances (feature_importances_ clf) col_list ;;;
      roc_auc <- local "roc_auc" roc_auc ;;
      ret (RetPredAucClf y_pred roc_auc clf)
    else if hasattr (best_estimator_ clf) "feature_importances_" then
      write_feature_importances
        (feature_importances_ (best_estimator_ clf)) col_list ;;;
      roc_auc <- local "roc_auc" roc_auc ;;
      ret (RetPredAucClf y_pred roc_auc clf)
    else ret (RetPred y_pred)
  else if devcheck =? "notdev" then
    clf <- (if use_saved_model
            then load_pickle_file "probability.pkl"
            else
              (if debug
               then print [VStr "\nclf object right before fitting main model:"]
               else ret tt) ;;;
              clf <- fit clf X_train y_train ;;
              save_object_as_pickle "probability.pkl" clf ;;;
              ret clf) ;;
    y_pred <- (if modeltype =? "classification" then
                 proba <- predict_proba clf X_test ;;
                 col <- column 1 proba ;;
                 ret (Some (np_squeeze col))
               else if modeltype =? "regression" then
                 y_pred <- predict clf X_test ;;
                 ret (Some y_pred)
               else ret y_pred) ;;
    ret (RetPred y_pred)
  else ret (RetPred y_pred).

(** ** find_top_three_factors *)

(** Calling a method on a variable that may hold [None]. *)
Definition method (clf : option estimator) (name : string) : M estimator :=
  match clf with
  | Some c => ret c
  | None => raise (AttributeError name)
  end.

(** [clf.coef_]: the row of coefficients, one per feature (an [(m,)] array
    for a linear regression, a [(1, m)] array for a binary logistic
    regression; both broadcast against the rows of [X_test.values] alike). *)
Definition get_coef (clf : option estimator) : M vector :=
  match clf with
  | Some c => if hasattr c "coef_" then ret (coef_ c)
              else raise (AttributeError "coef_")
  | None => raise (AttributeError "coef_")
  end.

(** [X_test.values * clf.coef_] with numpy's broadcasting along the column
    axis: equal sizes multiply entry by entry, a size of one is stretched,
    anything else is a [ValueError].  The result is returned with its number
    of columns. *)
Definition broadcast_mul (ncols : nat) (rows : list vector) (coef : vector)
  : M (nat * list vector) :=
  if Nat.eqb (length coef) ncols then
    ret (ncols,
         map (fun row => map (fun p => (fst p * snd p)%Q) (combine row coef))
           rows)
  else if Nat.eqb (length coef) 1 then
    ret (ncols, map (fun row => map (fun x => (x * nth 0 coef 0)%Q) row) rows)
  else if Nat.eqb ncols 1 then
    ret (length coef,
         map (fun row => map (fun c => (nth 0 row 0 * c)%Q) coef) rows)
  else raise ValueError.

(** [for x in xs: body(x)] *)
Fixpoint for_each {A} (xs : list A) (body : A -> M unit) : M unit :=
  match xs with
  | [] => ret tt
  | x :: rest => body x ;;; for_each rest body
  end.

(** The loop of lines 194-198 over the rows of [res], appending to the three
    lists. *)
Fixpoint rank_rows (col_list : list string) (rows : list vector)
  (facts : list string * list string * list string)
  : M (list string * list string * list string) :=
  match rows with
  | [] => ret facts
  | row :: rest =>
    let '(first_fact, second_fact, third_fact) := facts in
    let list_of_indexrankings := argsort (map Qopp row) in
    i0 <- index list_of_indexrankings 0 ;;
    c0 <- index col_list i0 ;;
    i1 <- index list_of_indexrankings 1 ;;
    c1 <- index col_list i1 ;;
    i2 <- index list_of_indexrankings 2 ;;
    c2 <- index col_list i2 ;;
    rank_rows col_list rest
      (first_fact ++ [c0], second_fact ++ [c1], third_fact ++ [c2])
  end.

Definition VEstOpt (clf : option estimator) : pyval :=
  match clf with Some c => VEst c | None => VNone end.

(** [use_saved_model] is a boolean, so that the tests [is True] and
    [is False] of lines 155 and 157 cover every call; [clf] is [None] until
    a model type is recognised. *)
Definition find_top_three_factors (debug : bool) (X_train : DataFrame)
  (y_train : vector) (X_test : DataFrame) (model_type : string)
  (use_saved_model : bool)
  : M (list string * list string * list string) :=
  let clf : option estimator :=
    if model_type =? "classification" then Some LogisticRegression
    else if model_type =? "regression" then Some LinearRegression
    else None in
  clf <- (if use_saved_model then
            c <- load_pickle_file "factorlogit.pkl" ;;
            ret (Some c)
          else
            (if debug
             then print [VStr "\nclf object right before fitting factor ranking model"] ;;;
                  print [VEstOpt clf]
             else ret tt) ;;;
            if model_type =? "classification" then
              c <- method clf "fit" ;;
              c <- fit c X_train y_train ;;
              predict_proba c X_test ;;;
              ret (Some c)
            else if model_type =? "regression" then
              c <- method clf "fit" ;;
              c <- fit c X_train y_train ;;
              predict c X_test ;;;
              save_object_as_pickle "factorlogit.pkl" c ;;;
              ret (Some c)
            else ret clf) ;;
  (if debug
   then print [VStr "\nCoeffs right before multiplic. to determine top 3 factors"] ;;;
        coef <- get_coef clf ;;
        print [VVec coef] ;;;
        print [VStr "\nX_test right before this multiplication"] ;;;
        print [VLoc X_test 3]
   else ret tt) ;;;
  coef <- get_coef clf ;;
  '(ncols, res) <-
    broadcast_mul (length (columns X_test)) (values X_test) coef ;;
  (if debug
   then print [VStr "\nResult of coef * Xtest row by row multiplication"] ;;;
        for_each (seq 0 3) (fun i => row <- index res i ;; print [VVec row])
   else ret tt) ;;;
  let col_list := columns X_test in
  let first_fact : list string := [] in
  let second_fact : list string := [] in
  let third_fact : list string := [] in
  (if debug
   then print [VStr "\nSorting column importance rankings for each row in X_test..."]
   else ret tt) ;;;
  (if Nat.leb ncols 1 then raise IndexError else ret tt) ;;;
  '(first_fact, second_fact, third_fact) <-
    rank_rows col_list res (first_fact, second_fact, third_fact) ;;
  (if debug
   then print [VStr "\nTop three factors for top five rows:"] ;;;
        print [VList [VKw "first" (VList (map VStr (firstn 3 first_fact)));
                      VKw "second" (VList (map VStr (firstn 3 second_fact)));
                      VKw "third" (VList (map VStr (firstn 3 third_fact)))]]
   else ret tt) ;;;
  ret (first_fact, second_fact, third_fact).

(** ** GenerateAUC *)

(** [str.upper] on ASCII text. *)
Definition upper_ascii (c : ascii) : ascii :=
  let n := nat_of_ascii c in
  if Nat.leb 97 n && Nat.leb n 122 then ascii_of_nat (n - 32) else c.

Fixpoint upper (s : string) : string :=
  match s with
  | EmptyString => EmptyString
  | String c rest => String (upper_ascii c) (upper rest)
  end.

(** [a + b] on one-dimensional arrays. *)
Definition np_add (a b : vector) : M vector :=
  if Nat.eqb (length a) (length b) then
    ret (map (fun p => (fst p + snd p)%Q) (combine a b))
  else if Nat.eqb (length a) 1 then ret (map (fun y => (nth 0 a 0 + y)%Q) b)
  else if Nat.eqb (length b) 1 then ret (map (fun x => (x + nth 0 b 0)%Q) a)
  else raise ValueError.

(** [(a - c) ** 2] *)
Definition sq_dist (a : vector) (c : Q) : vector :=
  map (fun x => ((x - c) ^ 2)%Q) a.

Definition Qsmaller (a b : Q) : Q := if Qle_bool a b then a else b.

(** [np.min(d)]; numpy refuses an empty array. *)
Definition np_min (d : vector) : M Q :=
  match d with
  | [] => raise ValueError
  | x :: rest => ret (fold_left Qsmaller rest x)
  end.

(** [np.where(d == m)]: the positions at which [d] equals [m]. *)
Definition np_where_eq (d : vector) (m : Q) : list nat :=
  filter (fun i => Qeq_bool (nth i d 0%Q) m) (seq 0 (length d)).

(** [a[ind]] for an array of positions. *)
Fixpoint take (a : vector) (ind : list nat) : M vector :=
  match ind with
  | [] => ret []
  | i :: rest => x <- index a i ;; xs <- take a rest ;; ret (x :: xs)
  end.

(** What [%f] does to an array argument: only an array of size one converts
    to a Python float. *)
Definition float_of_array (a : vector) : M Q :=
  match a with
  | [x] => ret x
  | _ => raise TypeError
  end.

(** [predictions] and [labels] are lists of numbers, [plotFlg] and
    [allCutoffsFlg] booleans.  The value returned is the dictionary, as the
    list of its items. *)
Definition GenerateAUC (predictions labels : vector) (aucType : string)
  (plotFlg allCutoffsFlg : bool) : M (list (string * Q)) :=
  if negb (Nat.eqb (length predictions) (length labels)) then
    raise (PyException "Data vectors are not equal length!")
  else
  let aucType := upper aucType in
  aucType <- (if negb (aucType =? "SS") && negb (aucType =? "PR")
              then print [VStr "Drawing ROC curve with Sensitivity/Specificity"] ;;;
                   ret "SS"
              else ret aucType) ;;
  if aucType =? "SS" then
    '(fpr, tpr, thresh) <-
      metric "roc_curve" [VVec labels; VVec predictions]
        (roc_curve labels predictions) ;;
    area <- metric "auc" [VVec fpr; VVec tpr] (auc fpr tpr) ;;
    print [VFmt "Area under ROC curve (AUC): %0.2f" [VNum area]] ;;;
    d <- np_add (sq_dist fpr 0) (sq_dist tpr 1) ;;
    m <- np_min d ;;
    let ind := np_where_eq d m in
    bestTpr <- take tpr ind ;;
    bestFpr <- take fpr ind ;;
    cutoff <- take thresh ind ;;
    c <- float_of_array cutoff ;;
    t <- float_of_array bestTpr ;;
    f <- float_of_array bestFpr ;;
    print [VFmt "Ideal cutoff is %0.2f, yielding TPR of %0.2f and FPR of %0.2f"
             [VNum c; VNum t; VNum f]] ;;;
    (if allCutoffsFlg
     then print [VFmt "%-7s %-6s %-5s" [VStr "Thresh"; VStr "TPR"; VStr "FPR"]] ;;;
          for_each (seq 0 (length thresh)) (fun i =>
            th <- index thresh i ;;
            tp <- index tpr i ;;
            fp <- index fpr i ;;
            print [VFmt "%-7.2f %-6.2f %-6.2f" [VNum th; VNum tp; VNum fp]])
     else ret tt) ;;;
    (if plotFlg
     then plt "figure" [] ;;;
          plt "plot" [VVec fpr; VVec tpr; VKw "color" (VStr "darkorange");
                      VKw "lw" (VNum 2);
                      VKw "label"
                        (VFmt "ROC curve (area = %0.2f)" [VNum area])] ;;;
          plt "plot" [VVec [0; 1]%Q; VVec [0; 1]%Q; VKw "color" (VStr "navy");
                      VKw "lw" (VNum 2); VKw "linestyle" (VStr "--")] ;;;
          plt "xlim" [VVec [0; 1]%Q] ;;;
          plt "ylim" [VVec [0; 105 # 100]%Q] ;;;
          plt "xlabel" [VStr "False Positive Rate"] ;;;
          plt "ylabel" [VStr "True Positive Rate"] ;;;
          plt "title" [VStr "Receiver operating characteristic curve"] ;;;
          plt "legend" [VKw "loc" (VStr "lower right")] ;;;
          plt "show" []
     else ret tt) ;;;
    c0 <- index cutoff 0 ;;
    t0 <- index bestTpr 0 ;;
    f0 <- index bestFpr 0 ;;
    ret [("AU_ROC", area); ("BestCutoff", c0); ("BestTpr", t0);
         ("BestFpr", f0)]
  else
    '(precision, recall, thresh) <-
      metric "precision_recall_curve" [VVec labels; VVec predictions]
        (precision_recall_curve (Some labels) predictions) ;;
    area <- metric "average_precision_score" [VVec labels; VVec predictions]
              (average_precision_score labels predictions) ;;
    print [VFmt "Area under PR curve (AU_PR): %0.2f" [VNum area]] ;;;
    d <- np_add (sq_dist precision 1) (sq_dist recall 1) ;;
    m <- np_min d ;;
    let ind := np_where_eq d m in
    bestPre <- take precision ind ;;
    bestRec <- take recall ind ;;
    cutoff <- take thresh ind ;;
    c <- float_of_array cutoff ;;
    p <- float_of_array bestPre ;;
    r <- float_of_array bestRec ;;
    print [VFmt "Ideal cutoff is %0.2f, yielding TPR of %0.2f and FPR of %0.2f"
             [VNum c; VNum p; VNum r]] ;;;
    (if allCutoffsFlg
     then print [VFmt "%-7s %-10s %-10s"
                   [VStr "Thresh"; VStr "Precision"; VStr "Recall"]] ;;;
          for_each (seq 0 (length thresh)) (fun i =>
            th <- index thresh i ;;
            pr <- index precision i ;;
            rc <- index recall i ;;
            print [VFmt "%5.2f %6.2f %10.2f" [VNum th; VNum pr; VNum rc]])
     else ret tt) ;;;
    (if plotFlg
     then plt "figure" [] ;;;
          plt "plot" [VVec recall; VVec precision; VKw "lw" (VNum 2);
                      VKw "color" (VStr "darkred");
                      VKw "label" (VFmt "Precision-Recall curve" [VNum area])] ;;;
          plt "xlabel" [VStr "Recall"] ;;;
          plt "ylabel" [VStr "Precision"] ;;;
          plt "ylim" [VVec [0; 105 # 100]%Q] ;;;
          plt "xlim" [VVec [0; 1]%Q] ;;;
          plt "title" [VFmt "Precision-Recall AUC={0:0.2f}" [VNum area]] ;;;
          plt "legend" [VKw "loc" (VStr "lower right")] ;;;
          plt "show" []
     else ret tt) ;;;
    c0 <- index cutoff 0 ;;
    p0 <- index bestPre 0 ;;
    r0 <- index bestRec 0 ;;
    ret [("AU_PR", area); ("BestCutoff", c0); ("BestPrecision", p0);
         ("BestRecall", r0)].

End Model.

(** Looking a key up in a returned dictionary. *)
Fixpoint lookup (key : string) (d : list (string * Q)) : option Q :=
  match d with
  | [] => None
  | (k, v) :: rest => if k =? key then Some v else lookup key rest
  end.

(** ** A concrete library

    A small library that answers every call with a computed value: it is
    used to run the module on concrete inputs.  Its metrics validate their
    arguments as scikit-learn does ([None] is rejected); its ROC curve is
    the plain cumulative construction, one point per distinct score. *)

Fixpoint insert_by (v : vector) (j : nat) (idx : list nat) : list nat :=
  match idx with
  | [] => [j]
  | k :: rest =>
    if Qle_bool (nth j v 0%Q) (nth k v 0%Q) then j :: idx
    else k :: insert_by v j rest
  end.

Definition insertion_argsort (v : vector) : list nat :=
  fold_right (insert_by v) [] (seq 0 (length v)).

Definition Qsum (v : vector) : Q := fold_right Qplus 0%Q v.

Definition Qmean (v : vector) : Q :=
  (Qsum v / inject_Z (Z.of_nat (length v)))%Q.

Definition checked_metric (f : vector -> vector -> Q)
  (y_true y_pred : option vector) : string + Q :=
  match y_true, y_pred with
  | Some a, Some b =>
    if Nat.eqb (length a) (length b) then
      if Nat.eqb (length a) 0 then inl "Found array with 0 sample(s)"
      else inr (f a b)
    else inl "Found input variables with inconsistent numbers of samples"
  | _, _ => inl "Expected sequence or array-like, got <class 'NoneType'>"
  end.

Definition sample_mse (a b : vector) : Q :=
  Qmean (map (fun p => ((fst p - snd p) ^ 2)%Q) (combine a b)).

Definition sample_mae (a b : vector) : Q :=
  Qmean (map (fun p => Qabs (fst p - snd p)) (combine a b)).

(** Scores in descending order, duplicates removed. *)
Fixpoint dedup (v : vector) : vector :=
  match v with
  | [] => []
  | x :: rest =>
    if existsb (Qeq_bool x) rest then dedup rest else x :: dedup rest
  end.

Definition descending (v : vector) : vector :=
  map (fun i => nth i v 0%Q) (insertion_argsort (map Qopp v)).

Definition count_at (labels scores : vector) (lab t : Q) : nat :=
  length (filter (fun p => Qeq_bool (fst p) lab && Qle_bool t (snd p))
            (combine labels scores)).

Definition ratio (k n : nat) : Q := (Z.of_nat k # Pos.of_nat n)%Q.

Definition sample_roc_curve (labels scores : vector)
  : string + (vector * vector * vector) :=
  let pos := count_at labels scores 1%Q (Qopp 1) in
  let neg := count_at labels scores 0%Q (Qopp 1) in
  match dedup (descending scores) with
  | [] => inl "empty input"
  | (top :: _) as ts =>
    if Nat.eqb pos 0 || Nat.eqb neg 0
    then inl "Only one class present in y_true"
    else inr (0%Q :: map (fun t => ratio (count_at labels scores 0%Q t) neg) ts,
              0%Q :: map (fun t => ratio (count_at labels scores 1%Q t) pos) ts,
              (top + 1)%Q :: ts)
  end.

(** The trapezoidal rule. *)
Fixpoint trapezoid (x y : vector) : Q :=
  match x, y with
  | x0 :: ((x1 :: _) as xs), y0 :: ((y1 :: _) as ys) =>
    ((x1 - x0) * (y0 + y1) / 2 + trapezoid xs ys)%Q
  | _, _ => 0%Q
  end.

Definition sample_hasattr (e : estimator) (a : string) : bool :=
  match e with
  | Fitted LinearRegression _ _ | Fitted LogisticRegression _ _ =>
    a =? "coef_"
  | Fitted (GridSearchCV _ _ _ _ _) _ _ =>
    (a =? "best_params_") || (a =? "best_estimator_")
  | Fitted (Supplied name) _ _ =>
    if name =? "forest" then a =? "feature_importances_" else a =? "coef_"
  | _ => false
  end.

Definition sample_best_estimator (e : estimator) : estimator :=
  match e with
  | Fitted (GridSearchCV algo _ _ _ _) X y => Fitted algo X y
  | _ => e
  end.

Definition sample_sqrt (q : Q) : string + Q :=
  if Qle_bool 0 q
  then inr (Z.sqrt (Qnum q * Zpos (Qden q)) # Qden q)%Q
  else inl "math domain error".

Definition sample_library : Library := {|
  fit_raises := fun _ _ _ => None;
  predict_value := fun _ X => inr (map Qsum (values X));
  predict_proba_value :=
    fun _ X => inr (map (fun _ => [1 # 2; 1 # 2]%Q) (values X));
  hasattr := sample_hasattr;
  best_params_ := fun _ => [];
  best_estimator_ := sample_best_estimator;
  feature_importances_ := fun _ => [];
  coef_ := fun _ => [2; - (1); 1]%Q;
  roc_auc_score :=
    fun y_true y_score => checked_metric (fun _ _ => 1 # 2)%Q y_true (Some y_score);
  precision_recall_curve := fun y_true _ =>
    match y_true with
    | Some _ => inr ([1; 1]%Q, [1; 0]%Q, [1 # 2]%Q)
    | None => inl "Expected sequence or array-like, got <class 'NoneType'>"
    end;
  roc_curve := sample_roc_curve;
  auc := fun x y => inr (trapezoid x y);
  average_precision_score := fun _ _ => inr (1 # 2)%Q;
  mean_squared_error := checked_metric sample_mse;
  mean_absolute_error := checked_metric sample_mae;
  math_sqrt := sample_sqrt;
  np_squeeze := fun v => v;
  argsort := insertion_argsort;
  load_pickle_file_value := fun file =>
    if (file =? "probability.pkl") || (file =? "factorlogit.pkl")
    then inr (Fitted LinearRegression (mkFrame [] []) [])
    else inl "No such file or directory";
  save_object_as_pickle_raises := fun _ _ => None;
  write_feature_importances_raises := fun _ _ => None;
  plt_raises := fun _ _ => None
|}.

(** Sample data: two or three patients, three features. *)
Definition X2 : DataFrame :=
  mkFrame ["age"; "bmi"; "a1c"] [[1; 2; 3]%Q; [3; 1; 1]%Q].

Definition X3 : DataFrame :=
  mkFrame ["age"; "bmi"; "a1c"] [[1; 2; 3]%Q; [3; 1; 1]%Q; [0; 5; 4]%Q].

(** The ROC curve of four patients whose scores rank positives and negatives
    alternately: the points (0, 1/2) and (1/2, 1) are both nearest to the
    corner. *)
Definition tie_scores : vector := [9 # 10; 8 # 10; 7 # 10; 6 # 10]%Q.
Definition tie_labels : vector := [1; 0; 1; 0]%Q.
Definition tie_fpr : vector := [0; 0 # 2; 1 # 2; 1 # 2; 2 # 2]%Q.
Definition tie_tpr : vector := [0; 1 # 2; 1 # 2; 2 # 2; 2 # 2]%Q.
Definition tie_thresh : vector :=
  [19 # 10; 9 # 10; 8 # 10; 7 # 10; 6 # 10]%Q.

(** A second library, which differs from the first in two answers: a fit
    fails when the labels are not one per training row, and a fitted model
    has one coefficient per training column. *)
Definition strict_library : Library := {|
  fit_raises := fun _ X y =>
    if Nat.eqb (length (values X)) (length y) then None
    else Some "Found input variables with inconsistent numbers of samples";
  predict_value := @predict_value sample_library;
  predict_proba_value := @predict_proba_value sample_library;
  hasattr := sample_hasattr;
  best_params_ := fun _ => [];
  best_estimator_ := sample_best_estimator;
  feature_importances_ := fun _ => [];
  coef_ := fun clf =>
    match clf with
    | Fitted _ X _ => map (fun _ => 1%Q) (columns X)
    | _ => []
    end;
  roc_auc_score := @roc_auc_score sample_library;
  precision_recall_curve := @precision_recall_curve sample_library;
  roc_curve := sample_roc_curve;
  auc := fun x y => inr (trapezoid x y);
  average_precision_score := fun _ _ => inr (1 # 2)%Q;
  mean_squared_error := checked_metric sample_mse;
  mean_absolute_error := checked_metric sample_mae;
  math_sqrt := sample_sqrt;
  np_squeeze := fun v => v;
  argsort := insertion_argsort;
  load_pickle_file_value := @load_pickle_file_value sample_library;
  save_object_as_pickle_raises := fun _ _ => None;
  write_feature_importances_raises := fun _ _ => None;
  plt_raises := fun _ _ => None
|}.



Definition no_data : DataFrame := mkFrame [] [].

(** Scores that separate the two positives from the two negatives. *)
Definition clean_labels : vector := [1; 1; 0; 0]%Q.
Definition clean_fpr : vector := [0; 0 # 2; 0 # 2; 1 # 2; 2 # 2]%Q.
Definition clean_tpr : vector := [0; 1 # 2; 2 # 2; 2 # 2; 2 # 2]%Q.

(** ** Reading a trace *)

(** The estimators fitted, with the data they were fitted on. *)
Definition fits (t : list event) : list (estimator * DataFrame * vector) :=
  flat_map (fun ev => match ev with
                      | EFit clf X y => [(clf, X, y)]
                      | _ => []
                      end) t.

(** The grid searches set up. *)
Definition grid_searches (t : list event) : list estimator :=
  flat_map (fun ev => match ev with
                      | EGridSearchCV algo param cv scoring n_jobs =>
                        [GridSearchCV algo param cv scoring n_jobs]
                      | _ => []
                      end) t.

(** The pickle files read. *)
Definition pickle_reads (t : list event) : list string :=
  flat_map (fun ev => match ev with
                      | ELoadPickle file => [file]
                      | _ => []
                      end) t.

(** The pickle files written, with the object written. *)
Definition pickle_writes (t : list event) : list (string * estimator) :=
  flat_map (fun ev => match ev with
                      | ESavePickle file obj => [(file, obj)]
                      | _ => []
                      end) t.

(** What was printed. *)
Definition printed (t : list event) : list (list pyval) :=
  flat_map (fun ev => match ev with
                      | EPrint args => [args]
                      | _ => []
                      end) t.

(** The metric computations requested, with their arguments. *)
Definition metric_calls (t : list event) : list (string * list pyval) :=
  flat_map (fun ev => match ev with
                      | EMetric fn args => [(fn, args)]
                      | _ => []
                      end) t.

(** The printed lines that report a regression metric. *)
Definition accuracy_lines (t : list event) : list (list pyval) :=
  filter (fun line => match line with
                      | VStr label :: _ =>
                        (label =? "\nRMSE error:")
                        || (label =? "\nMean absolute error:")
                      | _ => false
                      end) (printed t).

(** The computation does not end in the module's own [raise Exception]. *)
Definition no_explicit_raise {A} (m : M A) : Prop :=
  forall msg, result m <> Raise (PyException msg).

(** Every event of the computation satisfies [P]. *)
Definition trace_all {A} (P : event -> Prop) (m : M A) : Prop :=
  Forall P (trace m).

(** The computation ends in an exception. *)
Definition raises {A} (m : M A) : Prop :=
  exists e, result m = Raise e.

(** The event is not a pickle access, or is one of the file [name]. *)
Definition pickle_event_named (name : string) (ev : event) : Prop :=
  match ev with
  | ELoadPickle file | ESavePickle file _ => file = name
  | _ => True
  end.

(** The trace and the result of a computation satisfy [Q]. *)
Definition post {A} (m : M A) (Q : list event -> outcome A -> Prop) : Prop :=
  Q (trace m) (result m).

(** The event is a line printed to the console. *)
Definition is_print (ev : event) : Prop :=
  match ev with
  | EPrint _ => True
  | _ => False
  end.

(** ** The vocabulary of the properties *)

(** The squared distance of the ROC point [j] to the corner (0, 1). *)
Definition roc_distance (fpr tpr : vector) (j : nat) : Q :=
  ((nth j fpr 0 - 0) ^ 2 + (nth j tpr 0 - 1) ^ 2)%Q.

(** [k] is a point of the curve, and no point is nearer to the corner. *)
Definition nearest_corner (fpr tpr : vector) (k : nat) : Prop :=
  k < length fpr /\
  forall j, j < length fpr ->
            (roc_distance fpr tpr k <= roc_distance fpr tpr j)%Q.

(** The coefficient-weighted product [X[i, j] * coef[j]]. *)
Definition weighted (X : DataFrame) (coef : vector) (i j : nat) : Q :=
  (nth j (nth i (values X) []) 0 * nth j coef 0)%Q.

(** [a], [b], [c] name three different columns among the [m] columns, with
    weights [w] in descending order, and no other column weighs more than
    the third. *)
Definition top_three (m : nat) (w : nat -> Q) (cols : list string)
  (a b c : string) : Prop :=
  exists ja jb jc,
    (nth_error cols ja = Some a /\ nth_error cols jb = Some b
     /\ nth_error cols jc = Some c)
    /\ (ja < m /\ jb < m /\ jc < m)
    /\ (ja <> jb /\ ja <> jc /\ jb <> jc)
    /\ (w jb <= w ja)%Q /\ (w jc <= w jb)%Q
    /\ forall j, j < m -> j <> ja -> j <> jb -> j <> jc -> (w j <= w jc)%Q.

(** What numpy promises of [v.argsort()]: the positions of [v], each once,
    in ascending order of the values (the order among equal values is not
    fixed). *)
Definition is_argsort (v : vector) (idx : list nat) : Prop :=
  Permutation idx (seq 0 (length v))
  /\ forall p q, p <= q -> q < length v ->
                 (nth (nth p idx 0%nat) v 0 <= nth (nth q idx 0%nat) v 0)%Q.

(** The external calls by which [find_top_three_factors] gets its model all
    succeed, and [clf] is the model: the unpickled object, or the freshly
    fitted regression of the model type. *)
Definition obtains_model {L : Library} (X_train : DataFrame) (y_train : vector)
  (X_test : DataFrame) (model_type : string) (use_saved_model : bool)
  (clf : estimator) : Prop :=
  if use_saved_model then load_pickle_file_value "factorlogit.pkl" = inr clf
  else
    (model_type = "classification"
     /\ clf = Fitted LogisticRegression X_train y_train
     /\ fit_raises LogisticRegression X_train y_train = None
     /\ exists proba, predict_proba_value clf X_test = inr proba)
    \/ (model_type = "regression"
        /\ clf = Fitted LinearRegression X_train y_train
        /\ fit_raises LinearRegression X_train y_train = None
        /\ (exists y_pred, predict_value clf X_test = inr y_pred)
        /\ save_object_as_pickle_raises "factorlogit.pkl" clf = None).

(** The order of positions by the values of [v] at them. *)
Definition key_le (v : vector) (a b : nat) : Prop :=
  (nth a v 0 <= nth b v 0)%Q.

(** ** More vocabulary *)

(** The predictions requested, with the method, the model and the data. *)
Definition predicts (t : list event) : list (string * estimator * DataFrame) :=
  flat_map (fun ev => match ev with
                      | EPredict method clf X => [(method, clf, X)]
                      | _ => []
                      end) t.

(** The value a development run returns for a fitted [clf]: which of the
    three [return] statements of lines 94, 100 and 106 is reached, or line
    123 when none is. *)
Definition yesdev_value {L : Library} (clf : estimator)
  (y_pred : option vector) (roc_auc : Q) : clfreport_value :=
  if negb (hasattr clf "feature_importances_")
     && negb (hasattr clf "best_estimator_")
  then RetPredAuc y_pred roc_auc
  else if hasattr clf "feature_importances_"
       then RetPredAucClf y_pred roc_auc clf
       else if hasattr (best_estimator_ clf) "feature_importances_"
            then RetPredAucClf y_pred roc_auc clf
            else RetPred y_pred.

(** What [GenerateAUC] may do for a curve type and a plot flag. *)
Definition curve_event (pr : bool) (plotFlg : bool) (ev : event) : Prop :=
  match ev with
  | EPrint _ => True
  | EMetric fn _ =>
    if pr then fn = "precision_recall_curve" \/ fn = "average_precision_score"
    else fn = "roc_curve" \/ fn = "auc"
  | EPlot _ _ => plotFlg = true
  | _ => False
  end.

(** What [find_top_three_factors] may do. *)
Definition factor_event (ev : event) : Prop :=
  match ev with
  | EPrint _ | EFit _ _ _ | EPredict _ _ _ => True
  | ELoadPickle file | ESavePickle file _ => file = "factorlogit.pkl"
  | _ => False
  end.

(** What a production run may do. *)
Definition notdev_event (ev : event) : Prop :=
  match ev with
  | EPrint args => args = [VStr "\nclf object right before fitting main model:"]
  | EFit _ _ _ | EPredict _ _ _ | ELoadPickle _ | ESavePickle _ _ => True
  | _ => False
  end.


(** The squared distance of the precision-recall point [j] to (1, 1). *)
Definition pr_distance (precision recall : vector) (j : nat) : Q :=
  ((nth j precision 0 - 1) ^ 2 + (nth j recall 0 - 1) ^ 2)%Q.

(** [k] is a point of the precision-recall curve, and no point is nearer
    to (1, 1). *)
Definition nearest_pr (precision recall : vector) (k : nat) : Prop :=
  k < length precision /\
  forall j, j < length precision ->
            (pr_distance precision recall k <= pr_distance precision recall j)%Q.

(** The line of the cutoff table for the point [i] of a ROC curve. *)
Definition roc_table_line (fpr tpr thresh : vector) (i : nat) : event :=
  EPrint [VFmt "%-7.2f %-6.2f %-6.2f"
            [VNum (nth i thresh 0%Q); VNum (nth i tpr 0%Q);
             VNum (nth i fpr 0%Q)]].

(** The feature importances written, with the column names passed along. *)
Definition importances_written (t : list event)
  : list (vector * option (list string)) :=
  flat_map (fun ev => match ev with
                      | EWriteFeatureImportances imp col_list =>
                        [(imp, col_list)]
                      | _ => []
                      end) t.

(** * Properties *)

(** ** The effect monad *)

Lemma bind_ret_l {A B} (a : A) (f : A -> M B) : bind (ret a) f = f a.
Proof. unfold bind, ret. destruct (f a); reflexivity. Qed.

Lemma bind_emit {B} (ev : event) (f : unit -> M B) :
  bind (emit ev) f = (ev :: trace (f tt), result (f tt)).
Proof. unfold bind, emit, trace, result. destruct (f tt); reflexivity. Qed.

Lemma bind_assoc {A B C} (m : M A) (f : A -> M B) (g : B -> M C) :
  bind (bind m f) g = bind m (fun a => bind (f a) g).
Proof.
  destruct m as [t [a|e]]; simpl; [|reflexivity].
  destruct (f a) as [t1 [b|e1]]; simpl; [|reflexivity].
  destruct (g b) as [t2 r]. rewrite app_assoc. reflexivity.
Qed.

Lemma trace_bind {A B} (m : M A) (f : A -> M B) :
  trace (bind m f) =
  trace m ++ match result m with
             | Return a => trace (f a)
             | Raise _ => []
             end.
Proof.
  destruct m as [t [a|e]]; simpl.
  - destruct (f a); reflexivity.
  - rewrite app_nil_r. reflexivity.
Qed.

Lemma result_bind {A B} (m : M A) (f : A -> M B) :
  result (bind m f) =
  match result m with
  | Return a => result (f a)
  | Raise e => Raise e
  end.
Proof.
  destruct m as [t [a|e]]; simpl; [|reflexivity].
  destruct (f a); reflexivity.
Qed.

(** ** Which exceptions a computation can produce *)

Create HintDb noexp.

Section Compositional.

Context {L : Library}.

Lemma no_explicit_bind {A B} (m : M A) (f : A -> M B) :
  no_explicit_raise m -> (forall a, no_explicit_raise (f a)) ->
  no_explicit_raise (bind m f).
Proof.
  unfold no_explicit_raise. intros Hm Hf msg. rewrite result_bind.
  destruct (result m) eqn:E; [apply Hf|].
  intro H. apply (Hm msg). congruence.
Qed.

Lemma no_explicit_ret {A} (a : A) : no_explicit_raise (ret a).
Proof. intros msg; discriminate. Qed.

Lemma no_explicit_emit ev : no_explicit_raise (emit ev).
Proof. intros msg; discriminate. Qed.

Lemma no_explicit_print args : no_explicit_raise (print args).
Proof. intros msg; discriminate. Qed.

Lemma no_explicit_lift {A} (r : string + A) : no_explicit_raise (lift r).
Proof. destruct r; intros msg; discriminate. Qed.

Lemma no_explicit_lift_unit r : no_explicit_raise (lift_unit r).
Proof. destruct r; intros msg; discriminate. Qed.

Lemma no_explicit_local {A} name (v : option A) :
  no_explicit_raise (local name v).
Proof. destruct v; intros msg; discriminate. Qed.

Lemma no_explicit_index {A} (a : list A) i : no_explicit_raise (index a i).
Proof. unfold index. destruct (nth_error a i); intros msg; discriminate. Qed.

Lemma no_explicit_column j a : no_explicit_raise (column j a).
Proof.
  unfold column.
  match goal with |- context [if ?c then _ else _] => destruct c end;
    intros msg; discriminate.
Qed.

Lemma no_explicit_method clf name : no_explicit_raise (method clf name).
Proof. destruct clf; intros msg; discriminate. Qed.

Lemma no_explicit_get_coef clf : no_explicit_raise (get_coef clf).
Proof.
  unfold get_coef. destruct clf as [c|]; [destruct (hasattr c "coef_")|];
    intros msg; discriminate.
Qed.

Lemma no_explicit_float_of_array a : no_explicit_raise (float_of_array a).
Proof. destruct a as [|x [|y a]]; intros msg; discriminate. Qed.

Lemma no_explicit_np_min d : no_explicit_raise (np_min d).
Proof. destruct d; intros msg; discriminate. Qed.

Lemma no_explicit_np_add a b : no_explicit_raise (np_add a b).
Proof.
  unfold np_add.
  repeat match goal with |- context [if ?c then _ else _] => destruct c end;
    intros msg; discriminate.
Qed.

Lemma no_explicit_broadcast_mul n rows coef :
  no_explicit_raise (broadcast_mul n rows coef).
Proof.
  unfold broadcast_mul.
  repeat match goal with |- context [if ?c then _ else _] => destruct c end;
    intros msg; discriminate.
Qed.

#[local] Hint Resolve no_explicit_ret no_explicit_emit no_explicit_print
  no_explicit_lift no_explicit_lift_unit no_explicit_local no_explicit_index
  no_explicit_column no_explicit_method no_explicit_get_coef
  no_explicit_float_of_array no_explicit_np_min no_explicit_np_add
  no_explicit_broadcast_mul : noexp.

Lemma no_explicit_for_each {A} (xs : list A) body :
  (forall x, no_explicit_raise (body x)) ->
  no_explicit_raise (for_each xs body).
Proof.
  intros Hb. induction xs as [|x xs IH]; simpl.
  - apply no_explicit_ret.
  - apply no_explicit_bind; [apply Hb | intros _; apply IH].
Qed.

(** Breaks a goal about a sequence of statements into one goal per
    statement, splitting on the conditions on the way. *)
Ltac noexp :=
  repeat first
    [ solve [auto with noexp]
    | solve [intros ?; discriminate]
    | apply no_explicit_bind; [|intros]
    | apply no_explicit_for_each; intros
    | match goal with
      | |- no_explicit_raise (if ?c then _ else _) => destruct c
      | |- no_explicit_raise (match ?x with _ => _ end) => destruct x
      end ].

Lemma no_explicit_fit clf X y : no_explicit_raise (fit clf X y).
Proof. unfold fit. noexp. Qed.

Lemma no_explicit_predict clf X : no_explicit_raise (predict clf X).
Proof. unfold predict. noexp. Qed.

Lemma no_explicit_predict_proba clf X :
  no_explicit_raise (predict_proba clf X).
Proof. unfold predict_proba. noexp. Qed.

Lemma no_explicit_metric {A} fn args (r : string + A) :
  no_explicit_raise (metric fn args r).
Proof. unfold metric. noexp. Qed.

Lemma no_explicit_load file : no_explicit_raise (load_pickle_file file).
Proof. unfold load_pickle_file. noexp. Qed.

Lemma no_explicit_save file obj :
  no_explicit_raise (save_object_as_pickle file obj).
Proof. unfold save_object_as_pickle. noexp. Qed.

Lemma no_explicit_write_fi imp cols :
  no_explicit_raise (write_feature_importances imp cols).
Proof. unfold write_feature_importances. noexp. Qed.

Lemma no_explicit_plt fn args : no_explicit_raise (plt fn args).
Proof. unfold plt. noexp. Qed.

#[local] Hint Resolve no_explicit_fit no_explicit_predict no_explicit_predict_proba
  no_explicit_metric no_explicit_load no_explicit_save no_explicit_write_fi
  no_explicit_plt : noexp.

Lemma no_explicit_take a ind : no_explicit_raise (take a ind).
Proof. induction ind; simpl; noexp. Qed.

Lemma no_explicit_rank_rows cols rows facts :
  no_explicit_raise (rank_rows cols rows facts).
Proof.
  revert facts. induction rows as [|row rows IH]; intros [[f s] t]; simpl.
  - noexp.
  - noexp; apply IH.
Qed.

#[local] Hint Resolve no_explicit_take no_explicit_rank_rows : noexp.

Lemma no_explicit_print_regression_metrics y_pred y_pred_class y_test :
  no_explicit_raise (print_regression_metrics y_pred y_pred_class y_test).
Proof. unfold print_regression_metrics. noexp. Qed.

Lemma no_explicit_print_classification_metrics pr_auc roc_auc :
  no_explicit_raise (print_classification_metrics pr_auc roc_auc).
Proof. unfold print_classification_metrics. noexp. Qed.

#[local] Hint Resolve no_explicit_print_regression_metrics
  no_explicit_print_classification_metrics : noexp.

Lemma no_explicit_clfreport modeltype debug devcheck algo X_train y_train
  X_test y_test param cores tune use_saved_model col_list :
  no_explicit_raise
    (clfreport modeltype debug devcheck algo X_train y_train X_test y_test
       param cores tune use_saved_model col_list).
Proof. unfold clfreport. noexp. Qed.

Lemma no_explicit_find_top_three_factors debug X_train y_train X_test
  model_type use_saved_model :
  no_explicit_raise
    (find_top_three_factors debug X_train y_train X_test model_type
       use_saved_model).
Proof.
  unfold find_top_three_factors. noexp.
Qed.

Lemma no_explicit_GenerateAUC_equal_length predictions labels aucType plotFlg
  allCutoffsFlg :
  length predictions = length labels ->
  no_explicit_raise
    (GenerateAUC predictions labels aucType plotFlg allCutoffsFlg).
Proof.
  intros Hlen. unfold GenerateAUC.
  rewrite Hlen, Nat.eqb_refl. simpl negb. cbv iota.
  noexp.
Qed.

End Compositional.

(** ** Symbolic execution of a computation *)

Section Execution.

Context {L : Library}.

Lemma trace_lift {A} (r : string + A) : trace (lift r) = [].
Proof. destruct r; reflexivity. Qed.

Lemma trace_lift_unit r : trace (lift_unit r) = [].
Proof. destruct r; reflexivity. Qed.

Lemma trace_local {A} name (v : option A) : trace (local name v) = [].
Proof. destruct v; reflexivity. Qed.

Lemma trace_index {A} (a : list A) i : trace (index a i) = [].
Proof. unfold index. destruct (nth_error a i); reflexivity. Qed.

Lemma trace_column j a : trace (column j a) = [].
Proof.
  unfold column.
  match goal with |- context [if ?c then _ else _] => destruct c end;
    reflexivity.
Qed.

Lemma trace_method clf name : trace (method clf name) = [].
Proof. destruct clf; reflexivity. Qed.

Lemma trace_get_coef clf : trace (get_coef clf) = [].
Proof.
  unfold get_coef. destruct clf as [c|]; [destruct (hasattr c "coef_")|];
    reflexivity.
Qed.

Lemma trace_broadcast_mul n rows coef : trace (broadcast_mul n rows coef) = [].
Proof.
  unfold broadcast_mul.
  repeat match goal with |- context [if ?c then _ else _] => destruct c end;
    reflexivity.
Qed.

Lemma trace_rank_rows cols rows facts : trace (rank_rows cols rows facts) = [].
Proof.
  revert facts. induction rows as [|row rows IH]; intros [[f s] t]; simpl.
  - reflexivity.
  - repeat (rewrite trace_bind, trace_index; simpl;
            match goal with
            | |- context [result (index ?a ?i)] => destruct (result (index a i))
            end; [|reflexivity]).
    apply IH.
Qed.

Lemma fits_app t1 t2 : fits (t1 ++ t2) = fits t1 ++ fits t2.
Proof. apply flat_map_app. Qed.

Lemma grid_searches_app t1 t2 :
  grid_searches (t1 ++ t2) = grid_searches t1 ++ grid_searches t2.
Proof. apply flat_map_app. Qed.

Lemma pickle_reads_app t1 t2 :
  pickle_reads (t1 ++ t2) = pickle_reads t1 ++ pickle_reads t2.
Proof. apply flat_map_app. Qed.

Lemma pickle_writes_app t1 t2 :
  pickle_writes (t1 ++ t2) = pickle_writes t1 ++ pickle_writes t2.
Proof. apply flat_map_app. Qed.

Lemma metric_calls_app t1 t2 :
  metric_calls (t1 ++ t2) = metric_calls t1 ++ metric_calls t2.
Proof. apply flat_map_app. Qed.

(** Events of a given kind, compositionally. *)

Lemma trace_all_bind {A B} P (m : M A) (f : A -> M B) :
  trace_all P m -> (forall a, trace_all P (f a)) -> trace_all P (bind m f).
Proof.
  unfold trace_all. intros Hm Hf. rewrite trace_bind.
  apply Forall_app. split; [exact Hm|].
  destruct (result m); [apply Hf | constructor].
Qed.

Lemma trace_all_silent {A} P (m : M A) : trace m = [] -> trace_all P m.
Proof. unfold trace_all. intros ->. constructor. Qed.

Lemma trace_all_emit P ev : P ev -> trace_all P (emit ev).
Proof. intros H. repeat constructor. exact H. Qed.

Lemma trace_all_for_each {A} P (xs : list A) body :
  (forall x, trace_all P (body x)) -> trace_all P (for_each xs body).
Proof.
  intros Hb. induction xs as [|x xs IH]; simpl.
  - apply trace_all_silent. reflexivity.
  - apply trace_all_bind; [apply Hb | intros _; apply IH].
Qed.

Lemma pickle_reads_named name t :
  Forall (pickle_event_named name) t ->
  forall file, In file (pickle_reads t) -> file = name.
Proof.
  induction 1 as [|ev t Hev _ IH]; simpl; [tauto|].
  intros file Hin. apply in_app_or in Hin. destruct Hin as [Hin|Hin].
  - destruct ev; simpl in Hin; try tauto.
    destruct Hin as [<-|[]]. exact Hev.
  - apply IH, Hin.
Qed.

Lemma pickle_writes_named name t :
  Forall (pickle_event_named name) t ->
  forall file obj, In (file, obj) (pickle_writes t) -> file = name.
Proof.
  induction 1 as [|ev t Hev _ IH]; simpl; [tauto|].
  intros file obj Hin. apply in_app_or in Hin. destruct Hin as [Hin|Hin].
  - destruct ev; simpl in Hin; try tauto.
    destruct Hin as [Heq|[]]. inversion Heq; subst. exact Hev.
  - eapply IH, Hin.
Qed.

End Execution.

(** Splits a goal [trace_all P m] along the statements of [m]. *)
Ltac trace_all_steps :=
  repeat first
    [ apply trace_all_bind; [|intros]
    | apply trace_all_emit; simpl; solve [auto]
    | apply trace_all_for_each; intros
    | apply trace_all_silent;
      first [ reflexivity | apply trace_lift | apply trace_lift_unit
            | apply trace_local | apply trace_index | apply trace_column
            | apply trace_method | apply trace_get_coef
            | apply trace_broadcast_mul | apply trace_rank_rows ]
    | progress unfold fit, predict, predict_proba, metric, load_pickle_file,
        save_object_as_pickle, write_feature_importances, plt,
        print_regression_metrics, print_classification_metrics, print
    | match goal with
      | |- trace_all _ (if ?c then _ else _) => destruct c
      | |- trace_all _ (match ?x with _ => _ end) => destruct x
      end ].

(** ** Postconditions *)

Lemma post_bind {A B} (m : M A) (f : A -> M B) Q :
  post m (fun t r => match r with
                     | Return a => post (f a) (fun t' r' => Q (t ++ t') r')
                     | Raise e => Q t (Raise e)
                     end) ->
  post (bind m f) Q.
Proof.
  unfold post. rewrite trace_bind, result_bind.
  destruct (result m); [tauto|]. rewrite app_nil_r. tauto.
Qed.

Lemma post_ret {A} (a : A) Q : Q [] (Return a) -> post (ret a) Q.
Proof. exact (fun H => H). Qed.

Lemma post_raise {A} e (Q : list event -> outcome A -> Prop) :
  Q [] (Raise e) -> post (raise e) Q.
Proof. exact (fun H => H). Qed.

Lemma post_emit ev Q : Q [ev] (Return tt) -> post (emit ev) Q.
Proof. exact (fun H => H). Qed.

Lemma post_lift {A} (r : string + A) Q :
  (forall e, r = inl e -> Q [] (Raise (LibraryError e))) ->
  (forall a, r = inr a -> Q [] (Return a)) ->
  post (lift r) Q.
Proof. destruct r; unfold post; simpl; auto. Qed.

Lemma post_lift_unit r Q :
  (forall e, r = Some e -> Q [] (Raise (LibraryError e))) ->
  (r = None -> Q [] (Return tt)) ->
  post (lift_unit r) Q.
Proof. destruct r; unfold post; simpl; auto. Qed.

Lemma post_local {A} name (v : option A) Q :
  (v = None -> Q [] (Raise (UnboundLocalError name))) ->
  (forall a, v = Some a -> Q [] (Return a)) ->
  post (local name v) Q.
Proof. destruct v; unfold post; simpl; auto. Qed.

Lemma post_silent {A} (m : M A) Q :
  trace m = [] -> (forall r, result m = r -> Q [] r) -> post m Q.
Proof. unfold post. intros -> H. apply H. reflexivity. Qed.

Lemma post_trace_all {A} P (m : M A) (Q : list event -> outcome A -> Prop) :
  trace_all P m -> (forall t r, Forall P t -> Q t r) -> post m Q.
Proof. unfold post, trace_all. auto. Qed.

Lemma prints_only t :
  Forall is_print t ->
  fits t = [] /\ pickle_reads t = [] /\ pickle_writes t = []
  /\ grid_searches t = [] /\ metric_calls t = [].
Proof.
  induction 1 as [|ev t Hev _ IH]; [repeat split|].
  destruct ev; simpl in Hev; try contradiction. exact IH.
Qed.

Lemma prints_only_app t0 t :
  Forall is_print t ->
  fits (t0 ++ t) = fits t0 /\ pickle_reads (t0 ++ t) = pickle_reads t0
  /\ pickle_writes (t0 ++ t) = pickle_writes t0
  /\ grid_searches (t0 ++ t) = grid_searches t0
  /\ metric_calls (t0 ++ t) = metric_calls t0.
Proof.
  intros Ht. destruct (prints_only t Ht) as (Hf & Hr & Hw & Hg & Hm).
  rewrite fits_app, pickle_reads_app, pickle_writes_app, grid_searches_app,
    metric_calls_app, Hf, Hr, Hw, Hg, Hm, !app_nil_r.
  repeat split.
Qed.

(** After the events [t0], only lines are printed. *)
Ltac rest_prints :=
  apply (post_trace_all is_print); [trace_all_steps|];
  let t := fresh "t" in
  let r := fresh "r" in
  let Ht := fresh "Ht" in
  intros t r Ht;
  match goal with
  | |- context [?t0 ++ t] =>
    let Hf := fresh in
    let Hr := fresh in
    let Hw := fresh in
    let Hg := fresh in
    let Hm := fresh in
    destruct (prints_only_app t0 t Ht) as (Hf & Hr & Hw & Hg & Hm);
    rewrite ?Hf, ?Hr, ?Hw, ?Hg, ?Hm
  end.

(** Runs a computation statement by statement, one goal per path, the goal
    being the postcondition at the events and the result of that path. *)
Ltac wp_step :=
  lazymatch goal with
  | |- post (bind _ _) _ => simple apply post_bind
  | |- post (ret _) _ => simple apply post_ret
  | |- post (raise _) _ => simple apply post_raise
  | |- post (emit _) _ => simple apply post_emit
  | |- post (lift _) _ => simple apply post_lift; intros
  | |- post (lift_unit _) _ => simple apply post_lift_unit; intros
  | |- post (local _ _) _ => simple apply post_local; intros
  | |- post (if ?c then _ else _) _ =>
    first [ let v := eval vm_compute in c in
            lazymatch v with
            | true => change c with true
            | false => change c with false
            end
          | destruct c eqn:? ]
  | |- post (match ?x with _ => _ end) _ => destruct x eqn:?
  | |- post (column _ _) _ =>
    apply post_silent; [apply trace_column | intros [?|?] ?]
  | |- post (index _ _) _ =>
    apply post_silent; [apply trace_index | intros [?|?] ?]
  | |- post _ _ =>
    progress unfold fit, predict, predict_proba, metric, load_pickle_file,
      save_object_as_pickle, write_feature_importances, plt,
      print_regression_metrics, print_classification_metrics, print, method
  end.

Ltac wp := repeat (wp_step; cbv beta iota).

(** ** GenerateAUC: the length check and the curve type *)

Section GenerateAUC_flags.

Context {L : Library}.

(** C2.  [GenerateAUC] ends in its own exception, with the message
    'Data vectors are not equal length!', exactly when the two vectors
    differ in length; it does so before any call or output (the trace is
    empty); and no other function of the module ever ends in an exception
    raised by a [raise] statement of the module. *)
Theorem GenerateAUC_length_check :
  forall predictions labels aucType plotFlg allCutoffsFlg,
    (length predictions <> length labels ->
     GenerateAUC predictions labels aucType plotFlg allCutoffsFlg =
     ([], Raise (PyException "Data vectors are not equal length!")))
    /\ (length predictions = length labels ->
        no_explicit_raise
          (GenerateAUC predictions labels aucType plotFlg allCutoffsFlg))
    /\ (forall modeltype debug devcheck algo X_train y_train X_test y_test
          param cores tune use_saved_model col_list,
          no_explicit_raise
            (clfreport modeltype debug devcheck algo X_train y_train X_test
               y_test param cores tune use_saved_model col_list))
    /\ (forall debug X_train y_train X_test model_type use_saved_model,
          no_explicit_raise
            (find_top_three_factors debug X_train y_train X_test model_type
               use_saved_model))
    /\ (forall y_pred y_pred_class y_test,
          no_explicit_raise
            (print_regression_metrics y_pred y_pred_class y_test))
    /\ (forall pr_auc roc_auc,
          no_explicit_raise (print_classification_metrics pr_auc roc_auc)).
Proof.
  intros predictions labels aucType plotFlg allCutoffsFlg.
  split; [|split; [|split; [|split; [|split]]]].
  - intros Hne. unfold GenerateAUC.
    apply Nat.eqb_neq in Hne. rewrite Hne. reflexivity.
  - apply no_explicit_GenerateAUC_equal_length.
  - intros. apply no_explicit_clfreport.
  - intros. apply no_explicit_find_top_three_factors.
  - intros. apply no_explicit_print_regression_metrics.
  - intros. apply no_explicit_print_classification_metrics.
Qed.

Lemma upper_idempotent s : upper (upper s) = upper s.
Proof.
  induction s as [|c s IH]; simpl; [reflexivity|].
  rewrite IH. f_equal.
  destruct c as [[] [] [] [] [] [] [] []]; reflexivity.
Qed.

Lemma GenerateAUC_upper predictions labels aucType plotFlg allCutoffsFlg :
  GenerateAUC predictions labels (upper aucType) plotFlg allCutoffsFlg =
  GenerateAUC predictions labels aucType plotFlg allCutoffsFlg.
Proof. unfold GenerateAUC. rewrite upper_idempotent. reflexivity. Qed.

(** C10.  When the upper-cased [aucType] is neither 'SS' nor 'PR', the call
    ends as the same call with 'SS' does (same value or same exception), its
    trace being that of the 'SS' call after the one line that announces the
    default; and the type is matched without regard to case: two spellings
    with the same upper-cased form give the same computation, so 'ss' and
    'pr' behave exactly like 'SS' and 'PR'. *)
Theorem GenerateAUC_aucType_default :
  forall predictions labels aucType plotFlg allCutoffsFlg,
    length predictions = length labels ->
    upper aucType <> "SS" -> upper aucType <> "PR" ->
    result (GenerateAUC predictions labels aucType plotFlg allCutoffsFlg) =
    result (GenerateAUC predictions labels "SS" plotFlg allCutoffsFlg)
    /\ trace (GenerateAUC predictions labels aucType plotFlg allCutoffsFlg) =
       EPrint [VStr "Drawing ROC curve with Sensitivity/Specificity"]
       :: trace (GenerateAUC predictions labels "SS" plotFlg allCutoffsFlg)
    /\ (forall other,
          upper other = upper aucType ->
          GenerateAUC predictions labels other plotFlg allCutoffsFlg =
          GenerateAUC predictions labels aucType plotFlg allCutoffsFlg)
    /\ GenerateAUC predictions labels "ss" plotFlg allCutoffsFlg =
       GenerateAUC predictions labels "SS" plotFlg allCutoffsFlg
    /\ GenerateAUC predictions labels "pr" plotFlg allCutoffsFlg =
       GenerateAUC predictions labels "PR" plotFlg allCutoffsFlg.
Proof.
  intros predictions labels aucType plotFlg allCutoffsFlg Hlen Hss Hpr.
  assert (Hdefault :
    GenerateAUC predictions labels aucType plotFlg allCutoffsFlg =
    (EPrint [VStr "Drawing ROC curve with Sensitivity/Specificity"]
       :: trace (GenerateAUC predictions labels "SS" plotFlg allCutoffsFlg),
     result (GenerateAUC predictions labels "SS" plotFlg allCutoffsFlg))).
  { unfold GenerateAUC.
    rewrite Hlen, Nat.eqb_refl.
    apply String.eqb_neq in Hss, Hpr. rewrite Hss, Hpr.
    change (upper "SS") with "SS".
    change ("SS" =? "SS") with true.
    cbv beta iota delta [negb andb].
    unfold print. rewrite bind_assoc, bind_emit. reflexivity. }
  split; [rewrite Hdefault; reflexivity|].
  split; [rewrite Hdefault; reflexivity|].
  split.
  - intros other Hother.
    rewrite <- (GenerateAUC_upper _ _ other), Hother.
    apply GenerateAUC_upper.
  - split; [apply (GenerateAUC_upper _ _ "ss") | apply (GenerateAUC_upper _ _ "pr")].
Qed.

End GenerateAUC_flags.

(** ** clfreport *)

Section Clfreport.

Context {L : Library}.

(** C9.  With a [devcheck] that is neither 'yesdev' nor 'notdev',
    [clfreport] fits nothing, prints nothing, touches no file (its trace is
    empty) and returns [None], the initial value of [y_pred]. *)
Theorem clfreport_unknown_devcheck :
  forall modeltype debug devcheck algo X_train y_train X_test y_test param
         cores tune use_saved_model col_list,
    devcheck <> "yesdev" -> devcheck <> "notdev" ->
    clfreport modeltype debug devcheck algo X_train y_train X_test y_test
      param cores tune use_saved_model col_list =
    ([], Return (RetPred None)).
Proof.
  intros until col_list. intros Hyes Hnot. unfold clfreport.
  apply String.eqb_neq in Hyes, Hnot. rewrite Hyes, Hnot. reflexivity.
Qed.

(** C6.  The only pickle file [clfreport] reads or writes, in any mode, is
    'probability.pkl'.  With [devcheck = 'notdev'] and a saved model, that
    file is read, nothing is written and nothing is fitted; without a saved
    model the supplied [algo] is fitted on [(X_train, y_train)], nothing is
    read and, the fit having succeeded, the fitted object is written to
    'probability.pkl' (a fit that raises ends the call before the write). *)
Theorem clfreport_pickle_files :
  forall modeltype debug devcheck algo X_train y_train X_test y_test param
         cores tune use_saved_model col_list,
    let run :=
      clfreport modeltype debug devcheck algo X_train y_train X_test y_test
        param cores tune use_saved_model col_list in
    (forall file, In file (pickle_reads (trace run)) ->
                  file = "probability.pkl")
    /\ (forall file obj, In (file, obj) (pickle_writes (trace run)) ->
                         file = "probability.pkl")
    /\ (devcheck = "notdev" -> use_saved_model = true ->
        pickle_reads (trace run) = ["probability.pkl"]
        /\ pickle_writes (trace run) = []
        /\ fits (trace run) = [])
    /\ (devcheck = "notdev" -> use_saved_model = false ->
        fits (trace run) = [(algo, X_train, y_train)]
        /\ pickle_reads (trace run) = []
        /\ pickle_writes (trace run) =
           match fit_raises algo X_train y_train with
           | None => [("probability.pkl", Fitted algo X_train y_train)]
           | Some _ => []
           end).
Proof.
  intros until col_list. intros run.
  assert (Hall : trace_all (pickle_event_named "probability.pkl") run).
  { unfold run, clfreport. trace_all_steps. }
  split; [apply pickle_reads_named, Hall|].
  split; [apply pickle_writes_named, Hall|].
  clear Hall. unfold run, clfreport.
  split; intros -> ->; change ("notdev" =? "yesdev") with false;
    change ("notdev" =? "notdev") with true; cbv iota.
  - match goal with
    | |- context [trace ?m] =>
      change (post m (fun t _ =>
                pickle_reads t = ["probability.pkl"]
                /\ pickle_writes t = [] /\ fits t = []))
    end.
    wp; repeat split.
  - match goal with
    | |- context [trace ?m] =>
      change (post m (fun t _ =>
                fits t = [(algo, X_train, y_train)]
                /\ pickle_reads t = []
                /\ pickle_writes t =
                   match fit_raises algo X_train y_train with
                   | None => [("probability.pkl", Fitted algo X_train y_train)]
                   | Some _ => []
                   end))
    end.
    wp; repeat split;
      match goal with
      | H : fit_raises _ _ _ = _ |- _ => rewrite H; reflexivity
      end.
Qed.

(** The wrapper built by [GridSearchCV] is never the estimator it wraps. *)
Lemma GridSearchCV_not_self algo param cv scoring n_jobs :
  GridSearchCV algo param cv scoring n_jobs <> algo.
Proof.
  induction algo; try discriminate.
  intros H. inversion H; subst. apply IHalgo. assumption.
Qed.

(** C7.  A grid search is set up exactly when [devcheck = 'yesdev'] and
    [tune] holds, and then it is [GridSearchCV(algo, param, cv=5,
    scoring='roc_auc', n_jobs=cores)]; whatever [clfreport] fits is fitted
    on [(X_train, y_train)] and is that wrapper in this case and the
    supplied [algo] itself, which is not a wrapper built by [clfreport], in
    every other; and a fit does take place with 'yesdev' for the two model
    types, and with 'notdev' when no saved model is used. *)
Theorem clfreport_grid_search :
  forall modeltype debug devcheck algo X_train y_train X_test y_test param
         cores tune use_saved_model col_list,
    let run :=
      clfreport modeltype debug devcheck algo X_train y_train X_test y_test
        param cores tune use_saved_model col_list in
    let wrapper := GridSearchCV algo param 5 "roc_auc" cores in
    let fitted := if (devcheck =? "yesdev") && tune then wrapper else algo in
    grid_searches (trace run) =
      (if (devcheck =? "yesdev") && tune then [wrapper] else [])
    /\ (forall clf X y, In (clf, X, y) (fits (trace run)) ->
                        clf = fitted /\ X = X_train /\ y = y_train)
    /\ (devcheck = "yesdev" ->
        modeltype = "classification" \/ modeltype = "regression" ->
        fits (trace run) = [(fitted, X_train, y_train)])
    /\ (devcheck = "notdev" -> use_saved_model = false ->
        fits (trace run) = [(algo, X_train, y_train)])
    /\ wrapper <> algo.
Proof.
  intros until col_list. intros run wrapper fitted.
  assert (Hfits : post run (fun t _ =>
            fits t = [] \/ fits t = [(fitted, X_train, y_train)])).
  { unfold fitted, wrapper, run, clfreport.
    destruct (devcheck =? "yesdev") eqn:Hyes;
      [|destruct (devcheck =? "notdev") eqn:Hnot]; cbn [andb];
      wp; simpl; auto. }
  split.
  { change (post run (fun t _ =>
              grid_searches t =
              if (devcheck =? "yesdev") && tune then [wrapper] else [])).
    unfold wrapper, run, clfreport.
    destruct (devcheck =? "yesdev") eqn:Hyes;
      [|destruct (devcheck =? "notdev") eqn:Hnot]; cbn [andb];
      wp; reflexivity. }
  split.
  { intros clf X y Hin. unfold post in Hfits.
    destruct Hfits as [Hf|Hf]; rewrite Hf in Hin; simpl in Hin; [tauto|].
    destruct Hin as [Heq|[]]. inversion Heq; subst. auto. }
  split.
  { intros Hdev Hmt. unfold post in Hfits.
    destruct Hfits as [Hf|Hf]; [exfalso|exact Hf].
    revert Hf. clear fitted. subst devcheck.
    change (post run (fun t _ => fits t <> [])).
    unfold run, clfreport.
    change ("yesdev" =? "yesdev") with true. cbv iota.
    destruct Hmt as [-> | ->].
    - change ("classification" =? "classification") with true. cbv iota.
      wp; discriminate.
    - change ("regression" =? "classification") with false.
      change ("regression" =? "regression") with true. cbv iota.
      wp; discriminate. }
  split.
  { intros -> ->. clear Hfits.
    change (post run (fun t _ => fits t = [(algo, X_train, y_train)])).
    unfold run, clfreport.
    change ("notdev" =? "yesdev") with false.
    change ("notdev" =? "notdev") with true. cbv iota.
    wp; reflexivity. }
  apply GridSearchCV_not_self.
Qed.

(** Closes a goal about the members of a computed list of printed lines or
    metric calls. *)
Ltac members :=
  intros; simpl in *;
  repeat match goal with
         | H : _ \/ _ |- _ => destruct H as [H|H]; try discriminate H
         | H : False |- _ => destruct H
         | H : (_, _) = (_, _) |- _ => injection H; clear H; intros; subst
         | H : _ :: _ = _ :: _ |- _ => injection H; clear H; intros; subst
         | H : VNum _ = VNum _ |- _ => injection H; clear H; intros; subst
         | H : VStr _ = VStr _ |- _ => injection H; clear H; intros; subst
         | H : _ = ?x |- _ => is_var x; subst x
         | H : ?x = _ |- _ => is_var x; subst x
         end;
  try discriminate; eauto.

(** C8.  A regression run with [devcheck = 'yesdev'] never returns: the
    only mean-squared-error computation it requests is of [(y_test, None)],
    [y_pred_class] never having been assigned, so with a metrics library
    that rejects [None] the call ends in that exception; and whatever the
    library does there, each of the three [return] statements of the branch
    reads [roc_auc], which the regression branch never assigns, so a run that
    reaches one of them ends in an exception as well. *)
Theorem clfreport_regression_yesdev_raises :
  forall debug algo X_train y_train X_test y_test param cores tune
         use_saved_model col_list,
    let run :=
      clfreport "regression" debug "yesdev" algo X_train y_train X_test
        y_test param cores tune use_saved_model col_list in
    let clf :=
      Fitted (if tune then GridSearchCV algo param 5 "roc_auc" cores
              else algo) X_train y_train in
    (forall args, In ("mean_squared_error", args) (metric_calls (trace run)) ->
                  args = [VOpt y_test; VNone])
    /\ ((forall y_true, exists e, mean_squared_error y_true None = inl e) ->
        raises run)
    /\ (hasattr clf "feature_importances_" = true
        \/ hasattr clf "best_estimator_" = false
        \/ hasattr (best_estimator_ clf) "feature_importances_" = true ->
        raises run).
Proof.
  intros until col_list. intros run clf.
  split; [|split].
  - change (post run (fun t _ =>
              forall args, In ("mean_squared_error", args) (metric_calls t) ->
                           args = [VOpt y_test; VNone])).
    unfold run, clfreport. wp; members.
  - intros Hnone.
    change (post run (fun _ r => exists e, r = Raise e)).
    unfold run, clfreport. wp; eauto;
      match goal with
      | H : mean_squared_error ?y None = inr _ |- _ =>
        destruct (Hnone y) as [? ?]; congruence
      end.
  - intros Hpath.
    change (post run (fun _ r => exists e, r = Raise e)).
    unfold run, clf, clfreport in *. wp; eauto; try discriminate; exfalso;
      repeat match goal with
             | H : _ && _ = true |- _ => apply andb_true_iff in H; destruct H
             | H : _ && _ = false |- _ =>
               apply andb_false_iff in H; destruct H
             | H : negb _ = true |- _ => apply negb_true_iff in H
             | H : negb _ = false |- _ => apply negb_false_iff in H
             end;
      try congruence;
      destruct Hpath as [Hp|[Hp|Hp]]; congruence.
Qed.

(** C4.  What a regression run with [devcheck = 'yesdev'] prints as RMSE,
    when it prints one, is the square root of the mean squared error of
    [(y_test, None)], [None] being the value of [y_pred_class], and not of
    [(y_test, y_pred)]; the MAE it prints is the mean absolute error between
    [y_test] and the predictions; and with a metrics library that rejects
    [None] neither line is ever printed. *)
Theorem clfreport_regression_metrics_printed :
  forall debug algo X_train y_train X_test y_test param cores tune
         use_saved_model col_list,
    let run :=
      clfreport "regression" debug "yesdev" algo X_train y_train X_test
        y_test param cores tune use_saved_model col_list in
    let clf :=
      Fitted (if tune then GridSearchCV algo param 5 "roc_auc" cores
              else algo) X_train y_train in
    (forall rmse, In [VStr "\nRMSE error:"; VNum rmse] (printed (trace run)) ->
       exists mse, mean_squared_error y_test None = inr mse
                   /\ math_sqrt mse = inr rmse)
    /\ (forall mae,
          In [VStr "\nMean absolute error:"; VNum mae; VStr "\n"]
            (printed (trace run)) ->
          exists y_pred, predict_value clf X_test = inr y_pred
                         /\ mean_absolute_error y_test (Some y_pred) = inr mae)
    /\ ((forall y_true, exists e, mean_squared_error y_true None = inl e) ->
        accuracy_lines (trace run) = []).
Proof.
  intros until col_list. intros run clf.
  split; [|split].
  - change (post run (fun t _ =>
      forall rmse, In [VStr "\nRMSE error:"; VNum rmse] (printed t) ->
        exists mse, mean_squared_error y_test None = inr mse
                    /\ math_sqrt mse = inr rmse)).
    unfold run, clfreport. wp; members.
  - change (post run (fun t _ =>
      forall mae,
        In [VStr "\nMean absolute error:"; VNum mae; VStr "\n"] (printed t) ->
        exists y_pred, predict_value clf X_test = inr y_pred
                       /\ mean_absolute_error y_test (Some y_pred) = inr mae)).
    unfold run, clf, clfreport. wp; members.
  - intros Hnone.
    change (post run (fun t _ => accuracy_lines t = [])).
    unfold run, clfreport. wp;
      try match goal with
          | H : mean_squared_error ?y None = inr _ |- _ =>
            destruct (Hnone y) as [? ?]; congruence
          end;
      reflexivity.
Qed.

End Clfreport.

(** ** find_top_three_factors *)

Section Factors.

Context {L : Library}.

(** C5.  With a saved model, [find_top_three_factors] reads
    'factorlogit.pkl', fits nothing and writes nothing.  Without one it fits
    a fresh model and, for a regression whose fit and prediction succeed,
    writes the fitted model to 'factorlogit.pkl'; for a classification it
    fits the model and writes nothing at all: the save statement sits inside
    the regression branch. *)
Theorem find_top_three_factors_pickle_files :
  forall debug X_train y_train X_test model_type use_saved_model,
    let run :=
      find_top_three_factors debug X_train y_train X_test model_type
        use_saved_model in
    (use_saved_model = true ->
     pickle_reads (trace run) = ["factorlogit.pkl"]
     /\ pickle_writes (trace run) = [] /\ fits (trace run) = [])
    /\ (use_saved_model = false -> model_type = "regression" ->
        fits (trace run) = [(LinearRegression, X_train, y_train)]
        /\ pickle_reads (trace run) = []
        /\ pickle_writes (trace run) =
           match fit_raises LinearRegression X_train y_train,
                 predict_value (Fitted LinearRegression X_train y_train) X_test
           with
           | None, inr _ =>
             [("factorlogit.pkl", Fitted LinearRegression X_train y_train)]
           | _, _ => []
           end)
    /\ (use_saved_model = false -> model_type = "classification" ->
        fits (trace run) = [(LogisticRegression, X_train, y_train)]
        /\ pickle_reads (trace run) = []
        /\ pickle_writes (trace run) = []).
Proof.
  intros until use_saved_model. intros run.
  split; [|split].
  - intros ->.
    change (post run (fun t _ =>
              pickle_reads t = ["factorlogit.pkl"]
              /\ pickle_writes t = [] /\ fits t = [])).
    unfold run, find_top_three_factors. cbv zeta.
    match goal with |- post (bind _ ?K) _ => set (rest := K) end.
    wp; try (repeat split; reflexivity).
    subst rest. cbv beta. rest_prints. repeat split; reflexivity.
  - intros -> ->.
    change (post run (fun t _ =>
      fits t = [(LinearRegression, X_train, y_train)]
      /\ pickle_reads t = []
      /\ pickle_writes t =
         match fit_raises LinearRegression X_train y_train,
               predict_value (Fitted LinearRegression X_train y_train) X_test
         with
         | None, inr _ =>
           [("factorlogit.pkl", Fitted LinearRegression X_train y_train)]
         | _, _ => []
         end)).
    unfold run, find_top_three_factors. cbv zeta.
    match goal with |- post (bind _ ?K) _ => set (rest := K) end.
    wp;
      repeat match goal with
             | H : fit_raises _ _ _ = _ |- _ => rewrite H; clear H
             | H : predict_value _ _ = _ |- _ => rewrite H; clear H
             end;
      try (repeat split; reflexivity);
      subst rest; cbv beta; rest_prints; repeat split; reflexivity.
  - intros -> ->.
    change (post run (fun t _ =>
      fits t = [(LogisticRegression, X_train, y_train)]
      /\ pickle_reads t = [] /\ pickle_writes t = [])).
    unfold run, find_top_three_factors. cbv zeta.
    match goal with |- post (bind _ ?K) _ => set (rest := K) end.
    wp;
      try (repeat split; reflexivity);
      subst rest; cbv beta; rest_prints; repeat split; reflexivity.
Qed.

End Factors.

(** ** Arrays *)

Section Arrays.
Context {L : Library}.

Lemma nth_map_lt {A B} (f : A -> B) (l : list A) j d d' :
  j < length l -> nth j (map f l) d = f (nth j l d').
Proof.
  intros Hj. rewrite (nth_indep _ d (f d')) by (rewrite length_map; exact Hj).
  apply map_nth.
Qed.

Lemma index_lt {A} (a : list A) i d :
  i < length a -> index a i = ret (nth i a d).
Proof.
  intros Hi. unfold index.
  rewrite (nth_error_nth' a d Hi). reflexivity.
Qed.

Lemma take_in_range a ind :
  (forall i, In i ind -> i < length a) ->
  take a ind = ret (map (fun i => nth i a 0%Q) ind).
Proof.
  induction ind as [|i ind IH]; intros Hin; simpl; [reflexivity|].
  rewrite (index_lt a i 0%Q) by (apply Hin; left; reflexivity).
  rewrite bind_ret_l, IH by (intros; apply Hin; right; assumption).
  rewrite bind_ret_l. reflexivity.
Qed.

Lemma np_add_same_length a b :
  length a = length b ->
  np_add a b = ret (map (fun p => (fst p + snd p)%Q) (combine a b)).
Proof. intros H. unfold np_add. rewrite H, Nat.eqb_refl. reflexivity. Qed.

Lemma nth_distances fpr tpr j :
  length fpr = length tpr -> j < length fpr ->
  nth j (map (fun p => (fst p + snd p)%Q)
           (combine (sq_dist fpr 0) (sq_dist tpr 1))) 0%Q =
  roc_distance fpr tpr j.
Proof.
  intros Hlen Hj. unfold sq_dist, roc_distance.
  rewrite (nth_map_lt _ _ _ _ (0%Q, 0%Q))
    by (rewrite length_combine, !length_map, <- Hlen, Nat.min_id; exact Hj).
  rewrite combine_nth by (rewrite !length_map; exact Hlen).
  simpl fst. simpl snd.
  rewrite (nth_map_lt _ fpr j _ 0%Q) by exact Hj.
  rewrite (nth_map_lt _ tpr j _ 0%Q) by (rewrite <- Hlen; exact Hj).
  reflexivity.
Qed.

Lemma Qsmaller_le_l a b : (Qsmaller a b <= a)%Q.
Proof.
  unfold Qsmaller. destruct (Qle_bool a b) eqn:E; [apply Qle_refl|].
  apply Qlt_le_weak, Qnot_le_lt. intros H. apply Qle_bool_iff in H. congruence.
Qed.

Lemma Qsmaller_le_r a b : (Qsmaller a b <= b)%Q.
Proof.
  unfold Qsmaller. destruct (Qle_bool a b) eqn:E; [|apply Qle_refl].
  apply Qle_bool_iff, E.
Qed.

Lemma Qsmaller_cases a b : Qsmaller a b = a \/ Qsmaller a b = b.
Proof. unfold Qsmaller. destruct (Qle_bool a b); auto. Qed.

Lemma fold_smaller_spec rest x :
  let m := fold_left Qsmaller rest x in
  In m (x :: rest) /\ forall y, In y (x :: rest) -> (m <= y)%Q.
Proof.
  revert x. induction rest as [|z rest IH]; intros x; simpl.
  - split; [auto|]. intros y [<-|[]]. apply Qle_refl.
  - destruct (IH (Qsmaller x z)) as [Hin Hle]. simpl in Hin. split.
    + destruct Hin as [Hin|Hin]; [|auto].
      rewrite <- Hin.
      destruct (Qsmaller_cases x z) as [E|E]; rewrite E; auto.
    + intros y [<-|[<-|Hy]].
      * eapply Qle_trans; [apply Hle; left; reflexivity|apply Qsmaller_le_l].
      * eapply Qle_trans; [apply Hle; left; reflexivity|apply Qsmaller_le_r].
      * apply Hle. right. exact Hy.
Qed.

Lemma in_np_where_eq d m k :
  In k (np_where_eq d m) <-> k < length d /\ (nth k d 0 == m)%Q.
Proof.
  unfold np_where_eq. rewrite filter_In, in_seq, Qeq_bool_iff. simpl. intuition lia.
Qed.

Lemma NoDup_np_where_eq d m : NoDup (np_where_eq d m).
Proof. apply NoDup_filter, seq_NoDup. Qed.

End Arrays.

(** ** GenerateAUC: the suggested cutoff *)

Section Cutoff.
Context {L : Library}.

Lemma result_for_each_ok {A} (xs : list A) body :
  (forall x, In x xs -> result (body x) = Return tt) ->
  result (for_each xs body) = Return tt.
Proof.
  induction xs as [|x xs IH]; intros Hb; simpl; [reflexivity|].
  rewrite result_bind, Hb by (left; reflexivity).
  apply IH. intros y Hy. apply Hb. right. exact Hy.
Qed.

Lemma result_metric_ok {A} fn args (r : string + A) a :
  r = inr a -> result (metric fn args r) = Return a.
Proof. intros ->. reflexivity. Qed.

Lemma result_plt_ok fn args :
  plt_raises fn args = None -> result (plt fn args) = Return tt.
Proof. intros H. unfold plt. rewrite result_bind. simpl. rewrite H. reflexivity. Qed.

Lemma GenerateAUC_SS_result predictions labels plotFlg allCutoffsFlg fpr tpr
  thresh area :
  length predictions = length labels ->
  roc_curve labels predictions = inr (fpr, tpr, thresh) ->
  length fpr = length tpr -> length tpr = length thresh ->
  auc fpr tpr = inr area ->
  let d := map (fun p => (fst p + snd p)%Q)
             (combine (sq_dist fpr 0) (sq_dist tpr 1)) in
  exists plots : M unit,
    ((forall fn args, plt_raises fn args = None) -> result plots = Return tt)
    /\ result (GenerateAUC predictions labels "SS" plotFlg allCutoffsFlg) =
       match d with
       | [] => Raise ValueError
       | x :: rest =>
         match np_where_eq d (fold_left Qsmaller rest x) with
         | [k] =>
           match result plots with
           | Return _ =>
             Return [("AU_ROC", area); ("BestCutoff", nth k thresh 0%Q);
                     ("BestTpr", nth k tpr 0%Q); ("BestFpr", nth k fpr 0%Q)]
           | Raise e => Raise e
           end
         | _ => Raise TypeError
         end
       end.
Proof.
  intros Hlen Hroc Hft Htt Hauc d.
  assert (Hd : length d = length fpr).
  { unfold d, sq_dist. rewrite length_map, length_combine, !length_map.
    rewrite <- Hft. apply Nat.min_id. }
  remember (result (GenerateAUC predictions labels "SS" plotFlg allCutoffsFlg))
    as r eqn:Hr.
  unfold GenerateAUC in Hr. rewrite Hlen, Nat.eqb_refl in Hr.
  change (upper "SS") with "SS" in Hr.
  change (String.eqb "SS" "SS") with true in Hr.
  change (String.eqb "SS" "PR") with false in Hr.
  cbv beta iota delta [negb andb] in Hr.
  rewrite bind_ret_l in Hr. cbv beta in Hr.
  change (String.eqb "SS" "SS") with true in Hr. cbv iota in Hr.
  rewrite result_bind in Hr.
  erewrite result_metric_ok in Hr by exact Hroc. cbv beta iota in Hr.
  rewrite result_bind in Hr.
  erewrite result_metric_ok in Hr by exact Hauc. cbv beta iota in Hr.
  rewrite result_bind in Hr. cbn [result print emit snd] in Hr.
  cbv beta iota in Hr.
  rewrite np_add_same_length in Hr
    by (unfold sq_dist; rewrite !length_map; exact Hft).
  rewrite bind_ret_l in Hr. fold d in Hr.
  destruct d as [|x rest] eqn:Ed.
  { exists (ret tt). split; [reflexivity|exact Hr]. }
  cbn [np_min] in Hr. rewrite bind_ret_l in Hr.
  set (ind := np_where_eq (x :: rest) (fold_left Qsmaller rest x)) in *.
  assert (Hind : forall i, In i ind -> i < length fpr).
  { intros i Hi. apply in_np_where_eq in Hi. rewrite <- Hd. tauto. }
  rewrite (take_in_range tpr) in Hr by (intros; rewrite <- Hft; auto).
  rewrite bind_ret_l in Hr.
  rewrite (take_in_range fpr) in Hr by auto.
  rewrite bind_ret_l in Hr.
  rewrite (take_in_range thresh) in Hr
    by (intros; rewrite <- Htt, <- Hft; auto).
  rewrite bind_ret_l in Hr.
  destruct ind as [|k [|k2 ind]];
    [exists (ret tt); split; [reflexivity|exact Hr]
    |
    |exists (ret tt); split; [reflexivity|exact Hr]].
  cbn [map float_of_array] in Hr. rewrite !bind_ret_l in Hr.
  rewrite result_bind in Hr. cbn [result print emit snd] in Hr.
  cbv beta iota in Hr.
  rewrite result_bind in Hr.
  match type of Hr with
  | context [result (if allCutoffsFlg then ?a else ?b)] =>
    assert (Hcut : result (if allCutoffsFlg then a else b) = Return tt)
  end.
  { destruct allCutoffsFlg; [|reflexivity].
    rewrite result_bind. cbn [result print emit snd]. cbv beta iota.
    apply result_for_each_ok. intros i Hi. apply in_seq in Hi.
    rewrite (index_lt thresh i 0%Q) by lia. rewrite bind_ret_l.
    rewrite (index_lt tpr i 0%Q) by lia. rewrite bind_ret_l.
    rewrite (index_lt fpr i 0%Q) by lia. rewrite bind_ret_l.
    reflexivity. }
  rewrite Hcut in Hr. cbv beta iota in Hr.
  rewrite result_bind in Hr.
  cbn [index nth_error] in Hr. rewrite !bind_ret_l in Hr.
  match type of Hr with
  | context [result (if plotFlg then ?a else ?b)] =>
    exists (if plotFlg then a else b)
  end.
  split; [|exact Hr].
  intros Hplt. destruct plotFlg; [|reflexivity].
  repeat (rewrite result_bind, result_plt_ok by apply Hplt; cbv beta iota).
  apply result_plt_ok, Hplt.
Qed.

Lemma in_minimisers fpr tpr x rest k :
  length fpr = length tpr ->
  map (fun p => (fst p + snd p)%Q) (combine (sq_dist fpr 0) (sq_dist tpr 1)) =
  x :: rest ->
  In k (np_where_eq (x :: rest) (fold_left Qsmaller rest x)) <->
  nearest_corner fpr tpr k.
Proof.
  intros Hft Ed.
  assert (Hd : length (x :: rest) = length fpr).
  { rewrite <- Ed. unfold sq_dist.
    rewrite length_map, length_combine, !length_map, <- Hft. apply Nat.min_id. }
  assert (Hnth : forall j, j < length fpr ->
                           nth j (x :: rest) 0%Q = roc_distance fpr tpr j).
  { intros j Hj. rewrite <- Ed. apply nth_distances; assumption. }
  destruct (fold_smaller_spec rest x) as [Hin Hle].
  rewrite in_np_where_eq, Hd. unfold nearest_corner.
  split; intros [Hk Hmin]; (split; [exact Hk|]).
  - intros j Hj. rewrite <- (Hnth k Hk), <- (Hnth j Hj), Hmin.
    apply Hle, nth_In. rewrite Hd. exact Hj.
  - apply Qle_antisym.
    + destruct (In_nth _ _ 0%Q Hin) as (j0 & Hj0 & Ej0).
      rewrite Hd in Hj0. rewrite <- Ej0, (Hnth k Hk), (Hnth j0 Hj0).
      apply Hmin, Hj0.
    + apply Hle, nth_In. rewrite Hd. exact Hk.
Qed.

(** C3.  For equal-length inputs on which the library returns a ROC curve
    [(fpr, tpr, thresh)] and its area: a dictionary returned for 'SS' holds,
    under 'BestCutoff', 'BestTpr' and 'BestFpr', the threshold and the rates
    of a point of the curve whose squared distance to (0, 1) is minimal; the
    call does return it when that point is the only such one and plotting
    does not fail; but when two points of the curve are at the minimal
    distance the call ends in a [TypeError] (the line that prints the ideal
    cutoff formats the arrays of all minimisers with [%0.2f]) and returns no
    dictionary. *)
Theorem GenerateAUC_best_cutoff :
  forall predictions labels plotFlg allCutoffsFlg fpr tpr thresh area,
    length predictions = length labels ->
    roc_curve labels predictions = inr (fpr, tpr, thresh) ->
    length fpr = length tpr -> length tpr = length thresh ->
    auc fpr tpr = inr area ->
    let run := GenerateAUC predictions labels "SS" plotFlg allCutoffsFlg in
    (forall dict, result run = Return dict ->
       exists k, nearest_corner fpr tpr k
                 /\ lookup "BestCutoff" dict = Some (nth k thresh 0%Q)
                 /\ lookup "BestTpr" dict = Some (nth k tpr 0%Q)
                 /\ lookup "BestFpr" dict = Some (nth k fpr 0%Q))
    /\ (forall k,
          nearest_corner fpr tpr k ->
          (forall j, nearest_corner fpr tpr j -> j = k) ->
          (forall fn args, plt_raises fn args = None) ->
          result run =
          Return [("AU_ROC", area); ("BestCutoff", nth k thresh 0%Q);
                  ("BestTpr", nth k tpr 0%Q); ("BestFpr", nth k fpr 0%Q)])
    /\ (forall k1 k2,
          nearest_corner fpr tpr k1 -> nearest_corner fpr tpr k2 ->
          k1 <> k2 ->
          result run = Raise TypeError).
Proof.
  intros predictions labels plotFlg allCutoffsFlg fpr tpr thresh area
    Hlen Hroc Hft Htt Hauc run.
  destruct (GenerateAUC_SS_result predictions labels plotFlg allCutoffsFlg
              fpr tpr thresh area Hlen Hroc Hft Htt Hauc)
    as (plots & Hplots & Hrun).
  fold run in Hrun.
  destruct (map (fun p => (fst p + snd p)%Q)
              (combine (sq_dist fpr 0) (sq_dist tpr 1)))
    as [|x rest] eqn:Ed.
  { assert (Hnone : forall k, ~ nearest_corner fpr tpr k).
    { intros k [Hk _]. apply (f_equal (@length Q)) in Ed. unfold sq_dist in Ed.
      rewrite length_map, length_combine, !length_map, <- Hft, Nat.min_id in Ed.
      simpl in Ed. lia. }
    split; [|split].
    - intros dict Hdict. congruence.
    - intros k Hk. destruct (Hnone k Hk).
    - intros k1 k2 Hk1. destruct (Hnone k1 Hk1). }
  pose proof (fun k => in_minimisers fpr tpr x rest k Hft Ed) as Hmin.
  pose proof (NoDup_np_where_eq (x :: rest) (fold_left Qsmaller rest x)) as Hnd.
  destruct (np_where_eq (x :: rest) (fold_left Qsmaller rest x))
    as [|k [|k' ind]].
  - split; [|split].
    + intros dict Hdict. congruence.
    + intros k Hk. apply Hmin in Hk. destruct Hk.
    + intros k1 k2 Hk1. apply Hmin in Hk1. destruct Hk1.
  - assert (Hk : nearest_corner fpr tpr k) by (apply Hmin; left; reflexivity).
    split; [|split].
    + intros dict Hdict. exists k. rewrite Hdict in Hrun.
      destruct (result plots); [|discriminate].
      injection Hrun as ->. repeat split; try apply Hk; reflexivity.
    + intros j Hj _ Hplt. apply Hmin in Hj. destruct Hj as [<-|[]].
      rewrite Hrun, (Hplots Hplt). reflexivity.
    + intros k1 k2 Hk1 Hk2 Hne. apply Hmin in Hk1, Hk2.
      destruct Hk1 as [<-|[]]. destruct Hk2 as [<-|[]]. congruence.
  - split; [|split].
    + intros dict Hdict. congruence.
    + intros j Hj Huniq. exfalso.
      assert (k = j) by (apply Huniq, Hmin; left; reflexivity).
      assert (k' = j) by (apply Huniq, Hmin; right; left; reflexivity).
      subst. inversion Hnd as [|? ? Hnotin _]. apply Hnotin. left. reflexivity.
    + intros. exact Hrun.
Qed.

End Cutoff.

(** ** find_top_three_factors: the ranking *)

Section Ranking.
Context {L : Library}.

Lemma argsort_descending row idx :
  is_argsort (map Qopp row) idx ->
  length idx = length row
  /\ NoDup idx
  /\ (forall p, p < length row -> nth p idx 0 < length row)
  /\ (forall j, j < length row -> exists q, q < length row /\ nth q idx 0 = j)
  /\ (forall p q, p <= q -> q < length row ->
        (nth (nth q idx 0%nat) row 0 <= nth (nth p idx 0%nat) row 0)%Q).
Proof.
  intros [Hperm Hsorted]. rewrite length_map in *.
  assert (Hlen : length idx = length row).
  { rewrite (Permutation_length Hperm). apply length_seq. }
  assert (Hrange : forall p, p < length row -> nth p idx 0 < length row).
  { intros p Hp.
    assert (In (nth p idx 0) (seq 0 (length row))) as Hin
      by (eapply Permutation_in; [exact Hperm|apply nth_In; lia]).
    apply in_seq in Hin. lia. }
  split; [exact Hlen|]. split.
  { eapply Permutation_NoDup; [apply Permutation_sym, Hperm|apply seq_NoDup]. }
  split; [exact Hrange|]. split.
  { intros j Hj.
    assert (In j idx) as Hin
      by (eapply Permutation_in; [apply Permutation_sym, Hperm|];
          apply in_seq; lia).
    destruct (In_nth _ _ 0 Hin) as (q & Hq & Eq). exists q. split; [lia|exact Eq]. }
  intros p q Hpq Hq. specialize (Hsorted p q Hpq Hq).
  rewrite (nth_map_lt Qopp row _ _ 0%Q) in Hsorted by (apply Hrange; lia).
  rewrite (nth_map_lt Qopp row _ _ 0%Q) in Hsorted by (apply Hrange; lia).
  apply Qopp_le_compat in Hsorted. rewrite !Qopp_involutive in Hsorted.
  exact Hsorted.
Qed.

Lemma rank_row cols row idx :
  is_argsort (map Qopp row) idx ->
  length row = length cols -> 3 <= length cols ->
  exists a b c,
    (index idx 0 = ret (nth 0 idx 0) /\ index cols (nth 0 idx 0) = ret a)
    /\ (index idx 1 = ret (nth 1 idx 0) /\ index cols (nth 1 idx 0) = ret b)
    /\ (index idx 2 = ret (nth 2 idx 0) /\ index cols (nth 2 idx 0) = ret c)
    /\ top_three (length cols) (fun j => nth j row 0%Q) cols a b c.
Proof.
  intros Hsort Hlen Hm.
  destruct (argsort_descending row idx Hsort)
    as (Hidx & Hnd & Hrange & Hsurj & Hdesc).
  rewrite Hlen in *.
  set (ja := nth 0 idx 0). set (jb := nth 1 idx 0). set (jc := nth 2 idx 0).
  assert (Hja : ja < length cols) by (apply Hrange; lia).
  assert (Hjb : jb < length cols) by (apply Hrange; lia).
  assert (Hjc : jc < length cols) by (apply Hrange; lia).
  assert (Hpos : forall p q, p < length cols -> q < length cols ->
                             nth p idx 0 = nth q idx 0 -> p = q).
  { intros p q Hp Hq. apply (proj1 (NoDup_nth idx 0) Hnd); lia. }
  exists (nth ja cols ""), (nth jb cols ""), (nth jc cols "").
  repeat split; try (apply index_lt; lia); try assumption.
  exists ja, jb, jc.
  repeat split; try (apply nth_error_nth'; assumption); try assumption.
  - intros E. apply Hpos in E; lia.
  - intros E. apply Hpos in E; lia.
  - intros E. apply Hpos in E; lia.
  - apply (Hdesc 0 1); lia.
  - apply (Hdesc 1 2); lia.
  - intros j Hj Ha Hb Hc. destruct (Hsurj j Hj) as (q & Hq & <-).
    apply (Hdesc 2 q); [|exact Hq].
    destruct q as [|[|[|q]]]; try lia; contradiction.
Qed.

Lemma rank_rows_spec cols rows :
  (forall v, is_argsort v (argsort v)) ->
  (forall row, In row rows -> length row = length cols) ->
  3 <= length cols ->
  forall f0 s0 t0,
  exists f s t,
    rank_rows cols rows (f0, s0, t0) = ret (f0 ++ f, s0 ++ s, t0 ++ t)
    /\ (length f = length rows /\ length s = length rows
        /\ length t = length rows)
    /\ forall i, i < length rows ->
         top_three (length cols) (fun j => nth j (nth i rows []) 0%Q) cols
           (nth i f "") (nth i s "") (nth i t "").
Proof.
  intros Hsort Hrows Hm.
  induction rows as [|row rows IH]; intros f0 s0 t0.
  - exists [], [], []. rewrite !app_nil_r. repeat split. simpl. lia.
  - destruct (rank_row cols row (argsort (map Qopp row)))
      as (a & b & c & (Ha1 & Ha2) & (Hb1 & Hb2) & (Hc1 & Hc2) & Htop);
      [apply Hsort | apply Hrows; left; reflexivity | exact Hm |].
    destruct (IH (fun r Hr => Hrows r (or_intror Hr))
                (f0 ++ [a]) (s0 ++ [b]) (t0 ++ [c]))
      as (f & s & t & Heq & (Hf & Hs & Ht) & Hall).
    exists (a :: f), (b :: s), (c :: t).
    split; [|split].
    + cbn [rank_rows].
      rewrite Ha1, bind_ret_l, Ha2, bind_ret_l, Hb1, bind_ret_l, Hb2,
        bind_ret_l, Hc1, bind_ret_l, Hc2, bind_ret_l, Heq.
      rewrite <- !app_assoc. reflexivity.
    + simpl. rewrite Hf, Hs, Ht. repeat split.
    + intros [|i] Hi; simpl; [exact Htop|]. apply Hall. simpl in Hi. lia.
Qed.

Lemma debug_rows_result (res : list vector) :
  result (for_each (seq 0 3) (fun i => row <- index res i ;; print [VVec row]))
  = if Nat.leb 3 (length res) then Return tt else Raise IndexError.
Proof. destruct res as [|r0 [|r1 [|r2 res]]]; reflexivity. Qed.

Lemma result_fit_ok clf X y :
  fit_raises clf X y = None -> result (fit clf X y) = Return (Fitted clf X y).
Proof.
  intros H. unfold fit. rewrite !result_bind. simpl. rewrite H. reflexivity.
Qed.

Lemma result_predict_ok clf X v :
  predict_value clf X = inr v -> result (predict clf X) = Return v.
Proof.
  intros H. unfold predict. rewrite !result_bind. simpl. rewrite H. reflexivity.
Qed.

Lemma result_predict_proba_ok clf X v :
  predict_proba_value clf X = inr v -> result (predict_proba clf X) = Return v.
Proof.
  intros H. unfold predict_proba. rewrite !result_bind. simpl. rewrite H.
  reflexivity.
Qed.

Lemma result_load_ok file clf :
  load_pickle_file_value file = inr clf ->
  result (load_pickle_file file) = Return clf.
Proof.
  intros H. unfold load_pickle_file. rewrite !result_bind. simpl. rewrite H.
  reflexivity.
Qed.

Lemma result_save_ok file clf :
  save_object_as_pickle_raises file clf = None ->
  result (save_object_as_pickle file clf) = Return tt.
Proof.
  intros H. unfold save_object_as_pickle. rewrite !result_bind. simpl.
  rewrite H. reflexivity.
Qed.

Lemma nth_products row coef j :
  length row = length coef -> j < length row ->
  nth j (map (fun p => (fst p * snd p)%Q) (combine row coef)) 0%Q =
  (nth j row 0 * nth j coef 0)%Q.
Proof.
  intros Hlen Hj.
  rewrite (nth_map_lt _ _ _ _ (0%Q, 0%Q))
    by (rewrite length_combine, <- Hlen, Nat.min_id; exact Hj).
  rewrite combine_nth by exact Hlen. reflexivity.
Qed.

(** C1.  For a well-formed [X_test] with [n] rows and at least three
    columns, a model obtained without failure whose coefficients are one per
    column, and an [argsort] that sorts: unless [debug] is set and [n < 3],
    [find_top_three_factors] returns three lists of length [n] whose entries
    at [i] name the columns with the largest, second-largest and
    third-largest product [X_test[i, j] * coef[j]] of row [i]; with [debug]
    set and fewer than three rows it ends in an [IndexError] instead (the
    debug output prints the first three rows of the products by index). *)
Theorem find_top_three_factors_ranking :
  forall debug X_train y_train X_test model_type use_saved_model clf,
    wf_frame X_test -> 3 <= length (columns X_test) ->
    obtains_model X_train y_train X_test model_type use_saved_model clf ->
    hasattr clf "coef_" = true ->
    length (coef_ clf) = length (columns X_test) ->
    (forall v, is_argsort v (argsort v)) ->
    let run :=
      find_top_three_factors debug X_train y_train X_test model_type
        use_saved_model in
    let n := length (values X_test) in
    (debug = false \/ 3 <= n ->
     exists first_fact second_fact third_fact,
       result run = Return (first_fact, second_fact, third_fact)
       /\ (length first_fact = n /\ length second_fact = n
           /\ length third_fact = n)
       /\ forall i, i < n ->
            top_three (length (columns X_test))
              (weighted X_test (coef_ clf) i) (columns X_test)
              (nth i first_fact "") (nth i second_fact "")
              (nth i third_fact ""))
    /\ (debug = true -> n < 3 -> result run = Raise IndexError).
Proof.
  intros debug X_train y_train X_test model_type use_saved_model clf
    Hwf Hm Hmodel Hattr Hcoef Hsort run n.
  set (res := map (fun row => map (fun p => (fst p * snd p)%Q)
                                (combine row (coef_ clf))) (values X_test)).
  assert (Hres : forall row, In row res -> length row = length (columns X_test)).
  { intros row Hin. apply in_map_iff in Hin. destruct Hin as (r & <- & Hr).
    rewrite length_map, length_combine, Hcoef, (Hwf r Hr). apply Nat.min_id. }
  destruct (rank_rows_spec (columns X_test) res Hsort Hres Hm [] [] [])
    as (f & s & t & Hrank & (Hf & Hs & Ht) & Htop).
  simpl in Hrank.
  assert (Hn : length res = n) by apply length_map.
  rewrite Hn in *.
  assert (Htop' : forall i, i < n ->
            top_three (length (columns X_test))
              (weighted X_test (coef_ clf) i) (columns X_test)
              (nth i f "") (nth i s "") (nth i t "")).
  { intros i Hi. specialize (Htop i Hi).
    assert (Hrow : In (nth i (values X_test) []) (values X_test))
      by (apply nth_In; exact Hi).
    destruct Htop as (ja & jb & jc & Hnames & (Hja & Hjb & Hjc) & Hne & H1 & H2 & H3).
    assert (Hw : forall j, j < length (columns X_test) ->
              nth j (nth i res []) 0%Q = weighted X_test (coef_ clf) i j).
    { intros j Hj. unfold res, weighted.
      rewrite (nth_map_lt _ _ i _ []) by exact Hi.
      apply nth_products; rewrite (Hwf _ Hrow); [symmetry; exact Hcoef|exact Hj]. }
    exists ja, jb, jc. repeat split; try tauto.
    - rewrite <- (Hw ja Hja), <- (Hw jb Hjb). exact H1.
    - rewrite <- (Hw jb Hjb), <- (Hw jc Hjc). exact H2.
    - intros j Hj Ha Hb Hc. rewrite <- (Hw j Hj), <- (Hw jc Hjc). auto. }
  remember (result run) as r eqn:Hr.
  unfold run, find_top_three_factors in Hr. cbv zeta in Hr.
  rewrite result_bind in Hr.
  match type of Hr with
  | context [result (if use_saved_model then ?a else ?b)] =>
    assert (Hphase : result (if use_saved_model then a else b) =
                     Return (Some clf))
  end.
  { unfold obtains_model in Hmodel. destruct use_saved_model.
    - rewrite result_bind, (result_load_ok _ _ Hmodel). reflexivity.
    - rewrite result_bind.
      assert (Hdbg : forall x y, result (if debug then print x ;;; print y
                                         else ret tt) = Return tt)
        by (intros; destruct debug; reflexivity).
      rewrite Hdbg. cbv beta iota.
      destruct Hmodel as [(-> & -> & Hfit & proba & Hp)
                         |(-> & -> & Hfit & (y_pred & Hp) & Hsave)].
      + change (String.eqb "classification" "classification") with true.
        cbv iota. cbn [method]. rewrite bind_ret_l.
        rewrite result_bind, (result_fit_ok _ _ _ Hfit). cbv beta iota.
        rewrite result_bind, (result_predict_proba_ok _ _ _ Hp). reflexivity.
      + change (String.eqb "regression" "classification") with false.
        change (String.eqb "regression" "regression") with true.
        cbv iota. cbn [method]. rewrite bind_ret_l.
        rewrite result_bind, (result_fit_ok _ _ _ Hfit). cbv beta iota.
        rewrite result_bind, (result_predict_ok _ _ _ Hp). cbv beta iota.
        rewrite result_bind, (result_save_ok _ _ Hsave). reflexivity. }
  rewrite Hphase in Hr. cbv beta iota in Hr.
  assert (Hget : get_coef (Some clf) = ret (coef_ clf))
    by (unfold get_coef; rewrite Hattr; reflexivity).
  rewrite Hget in Hr.
  rewrite result_bind in Hr.
  match type of Hr with
  | context [result (if debug then ?a else ?b)] =>
    assert (Hcoefdbg : result (if debug then a else b) = Return tt)
      by (destruct debug; [rewrite bind_ret_l|]; reflexivity)
  end.
  rewrite Hcoefdbg in Hr. cbv beta iota in Hr.
  rewrite bind_ret_l in Hr.
  unfold broadcast_mul in Hr. rewrite Hcoef, Nat.eqb_refl in Hr.
  rewrite bind_ret_l in Hr. cbv beta iota in Hr. fold res in Hr.
  rewrite result_bind in Hr.
  assert (Hskip : Nat.leb (length (columns X_test)) 1 = false)
    by (apply Nat.leb_gt; lia).
  split.
  - intros Hok. exists f, s, t. split; [|split; [auto|exact Htop']].
    assert (Hloop : debug = false \/ Nat.leb 3 (length res) = true).
    { destruct Hok as [Hd|Hd]; [left; exact Hd|right].
      rewrite Hn. apply Nat.leb_le. exact Hd. }
    match type of Hr with
    | context [result (if debug then ?a else ?b)] =>
      assert (Hrows : result (if debug then a else b) = Return tt)
    end.
    { destruct Hloop as [-> | Hle]; [reflexivity|].
      destruct debug; [|reflexivity].
      rewrite result_bind. cbn [result print emit snd]. cbv beta iota.
      rewrite debug_rows_result.
      match goal with
      | |- context [Nat.leb 3 ?x] =>
        replace (Nat.leb 3 x) with true by (symmetry; exact Hle)
      end.
      reflexivity. }
    rewrite Hrows in Hr. cbv beta iota in Hr.
    rewrite result_bind in Hr.
    assert (Hsortdbg : forall x, result (if debug then print x else ret tt)
                                 = Return tt)
      by (intros; destruct debug; reflexivity).
    rewrite Hsortdbg in Hr. cbv beta iota in Hr.
    rewrite Hskip, bind_ret_l, Hrank, bind_ret_l in Hr. cbv beta iota in Hr.
    rewrite result_bind in Hr.
    match type of Hr with
    | context [result (if debug then ?a else ?b)] =>
      assert (Hlast : result (if debug then a else b) = Return tt)
        by (destruct debug; reflexivity)
    end.
    rewrite Hlast in Hr. exact Hr.
  - intros -> Hlt.
    rewrite result_bind in Hr. cbn [result print emit snd] in Hr.
    cbv beta iota in Hr. rewrite debug_rows_result in Hr.
    assert (Hgt : Nat.leb 3 (length res) = false)
      by (apply Nat.leb_gt; rewrite Hn; exact Hlt).
    match type of Hr with
    | context [Nat.leb 3 ?x] =>
      replace (Nat.leb 3 x) with false in Hr by (symmetry; exact Hgt)
    end.
    exact Hr.
Qed.

End Ranking.

(** ** The argsort of the concrete library *)

Section Insertion.

Variable v : vector.

Lemma insert_by_perm j idx : Permutation (insert_by v j idx) (j :: idx).
Proof.
  induction idx as [|k idx IH]; simpl; [reflexivity|].
  destruct (Qle_bool (nth j v 0%Q) (nth k v 0%Q)); [reflexivity|].
  rewrite IH. apply perm_swap.
Qed.

Lemma insert_by_hd j k idx :
  key_le v k j -> HdRel (key_le v) k idx -> HdRel (key_le v) k (insert_by v j idx).
Proof.
  intros Hkj Hhd. destruct idx as [|i idx]; simpl; [constructor; exact Hkj|].
  destruct (Qle_bool (nth j v 0%Q) (nth i v 0%Q)); constructor;
    [exact Hkj | inversion Hhd; assumption].
Qed.

Lemma insert_by_sorted j idx :
  Sorted (key_le v) idx -> Sorted (key_le v) (insert_by v j idx).
Proof.
  induction 1 as [|k idx Hs IH Hhd]; simpl; [repeat constructor|].
  destruct (Qle_bool (nth j v 0%Q) (nth k v 0%Q)) eqn:E.
  - constructor; [constructor; assumption|].
    constructor. apply Qle_bool_iff, E.
  - constructor; [exact IH|]. apply insert_by_hd; [|exact Hhd].
    apply Qlt_le_weak, Qnot_le_lt. intros H. apply Qle_bool_iff in H. congruence.
Qed.

Lemma insertion_argsort_sorted : Sorted (key_le v) (insertion_argsort v).
Proof.
  unfold insertion_argsort. induction (seq 0 (length v)); simpl;
    [constructor | apply insert_by_sorted; assumption].
Qed.

Lemma insertion_argsort_perm :
  Permutation (insertion_argsort v) (seq 0 (length v)).
Proof.
  unfold insertion_argsort. induction (seq 0 (length v)) as [|j l IH]; simpl;
    [reflexivity|].
  rewrite insert_by_perm, IH. reflexivity.
Qed.

Lemma strongly_sorted_nth idx :
  StronglySorted (key_le v) idx ->
  forall p q, p <= q -> q < length idx ->
              key_le v (nth p idx 0) (nth q idx 0).
Proof.
  induction 1 as [|k idx Hs IH Hall]; intros p q Hpq Hq; simpl in Hq; [lia|].
  destruct p as [|p], q as [|q]; simpl; try lia.
  - apply Qle_refl.
  - rewrite Forall_forall in Hall. apply Hall, nth_In. lia.
  - apply IH; lia.
Qed.

Lemma insertion_argsort_correct : is_argsort v (insertion_argsort v).
Proof.
  split; [apply insertion_argsort_perm|].
  intros p q Hpq Hq. apply strongly_sorted_nth; [|exact Hpq|].
  - apply Sorted_StronglySorted; [|apply insertion_argsort_sorted].
    intros a b c. apply Qle_trans.
  - rewrite (Permutation_length insertion_argsort_perm), length_seq. exact Hq.
Qed.

End Insertion.

(** ** The module on concrete inputs *)

Lemma sample_rejects_None :
  forall y_true, exists e,
    @mean_squared_error sample_library y_true None = inl e.
Proof. intros [y|]; eexists; reflexivity. Defined.

Lemma wf_X2 : wf_frame X2.
Proof.
  intros row [<-|[<-|[]]]; reflexivity.
Defined.

Lemma tie_nearest k : k = 1 \/ k = 3 -> nearest_corner tie_fpr tie_tpr k.
Proof.
  intros Hk. split; [destruct Hk as [-> | ->]; simpl; lia|].
  intros j Hj. simpl in Hj.
  destruct Hk as [-> | ->];
    (destruct j as [|[|[|[|[|j]]]]]; [| | | | |lia]);
    apply Qle_bool_iff; reflexivity.
Defined.

Lemma find_top_three_factors_ranking_witness :
  exists first_fact second_fact third_fact,
    result (@find_top_three_factors sample_library false X3 [1; 2; 3]%Q X2
              "regression" false) =
    Return (first_fact, second_fact, third_fact)
    /\ length first_fact = 2 /\ length second_fact = 2
    /\ length third_fact = 2.
Proof.
  destruct (find_top_three_factors_ranking (L := sample_library)
              false X3 [1; 2; 3]%Q X2 "regression" false
              (Fitted LinearRegression X3 [1; 2; 3]%Q)) as [Hreturns _].
  - exact wf_X2.
  - simpl. lia.
  - right. repeat split; eexists; reflexivity.
  - reflexivity.
  - reflexivity.
  - exact insertion_argsort_correct.
  - destruct (Hreturns (or_introl eq_refl))
      as (f & s & t & Hrun & (Hf & Hs & Ht) & _).
    exists f, s, t. repeat split; assumption.
Defined.

Lemma GenerateAUC_length_check_witness :
  length [1 # 2]%Q <> length (@nil Q)
  /\ @GenerateAUC sample_library [1 # 2]%Q [] "SS" false false =
     ([], Raise (PyException "Data vectors are not equal length!")).
Proof.
  split; [discriminate|].
  apply (proj1 (GenerateAUC_length_check (L := sample_library)
                  [1 # 2]%Q [] "SS" false false)).
  discriminate.
Defined.

Lemma GenerateAUC_best_cutoff_witness :
  length tie_scores = length tie_labels
  /\ result (@GenerateAUC sample_library tie_scores tie_labels "SS" false
               false) = Raise TypeError.
Proof.
  split; [reflexivity|].
  refine (proj2 (proj2 (GenerateAUC_best_cutoff (L := sample_library)
                          tie_scores tie_labels false false
                          tie_fpr tie_tpr tie_thresh
                          (trapezoid tie_fpr tie_tpr)
                          eq_refl eq_refl eq_refl eq_refl eq_refl))
            1 3 _ _ _).
  - apply tie_nearest. left. reflexivity.
  - apply tie_nearest. right. reflexivity.
  - discriminate.
Defined.

Lemma clfreport_regression_metrics_printed_witness :
  accuracy_lines
    (trace (@clfreport sample_library "regression" false "yesdev"
              LinearRegression X3 [1; 2; 3]%Q X2 (Some [1; 2]%Q) None 4
              false false None)) = [].
Proof.
  apply (proj2 (proj2 (clfreport_regression_metrics_printed
                         (L := sample_library) false LinearRegression X3
                         [1; 2; 3]%Q X2 (Some [1; 2]%Q) None 4 false false
                         None))).
  exact sample_rejects_None.
Defined.

Lemma find_top_three_factors_pickle_files_witness :
  pickle_writes
    (trace (@find_top_three_factors sample_library false X3 [1; 0; 1]%Q X2
              "classification" false)) = []
  /\ pickle_writes
       (trace (@find_top_three_factors sample_library false X3 [1; 2; 3]%Q X2
                 "regression" false)) =
     [("factorlogit.pkl", Fitted LinearRegression X3 [1; 2; 3]%Q)].
Proof.
  split.
  - apply (proj2 (proj2 (find_top_three_factors_pickle_files
                           (L := sample_library) false X3 [1; 0; 1]%Q X2
                           "classification" false)));
      reflexivity.
  - apply (proj1 (proj2 (find_top_three_factors_pickle_files
                           (L := sample_library) false X3 [1; 2; 3]%Q X2
                           "regression" false)));
      reflexivity.
Defined.

Lemma clfreport_pickle_files_witness :
  fits (trace (@clfreport sample_library "regression" false "notdev"
                 LinearRegression X3 [1; 2; 3]%Q X2 None None 4 true false
                 None)) = [(LinearRegression, X3, [1; 2; 3]%Q)]
  /\ pickle_reads
       (trace (@clfreport sample_library "regression" false "notdev"
                 LinearRegression X3 [1; 2; 3]%Q X2 None None 4 true false
                 None)) = []
  /\ pickle_writes
       (trace (@clfreport sample_library "regression" false "notdev"
                 LinearRegression X3 [1; 2; 3]%Q X2 None None 4 true false
                 None)) =
     [("probability.pkl", Fitted LinearRegression X3 [1; 2; 3]%Q)].
Proof.
  apply (proj2 (proj2 (proj2 (clfreport_pickle_files (L := sample_library)
                                "regression" false "notdev" LinearRegression
                                X3 [1; 2; 3]%Q X2 None None 4 true false
                                None))));
    reflexivity.
Defined.

Lemma clfreport_grid_search_witness :
  fits (trace (@clfreport sample_library "classification" false "yesdev"
                 (Supplied "forest") X3 [1; 0; 1]%Q X2 (Some [1; 0]%Q)
                 None 4 true false None)) =
  [(GridSearchCV (Supplied "forest") None 5 "roc_auc" 4, X3, [1; 0; 1]%Q)].
Proof.
  apply (proj1 (proj2 (proj2 (clfreport_grid_search (L := sample_library)
                                "classification" false "yesdev"
                                (Supplied "forest") X3 [1; 0; 1]%Q X2
                                (Some [1; 0]%Q) None 4 true false None))));
    [reflexivity | left; reflexivity].
Defined.

Lemma clfreport_regression_yesdev_raises_witness :
  raises (@clfreport sample_library "regression" false "yesdev"
            LinearRegression X3 [1; 2; 3]%Q X2 (Some [1; 2]%Q) None 4 false
            false None).
Proof.
  apply (proj1 (proj2 (clfreport_regression_yesdev_raises
                         (L := sample_library) false LinearRegression X3
                         [1; 2; 3]%Q X2 (Some [1; 2]%Q) None 4 false false
                         None))).
  exact sample_rejects_None.
Defined.

Lemma clfreport_unknown_devcheck_witness :
  "maybe" <> "yesdev" /\ "maybe" <> "notdev"
  /\ @clfreport sample_library "regression" true "maybe" LinearRegression X3
       [1; 2; 3]%Q X2 None None 4 true false None =
     ([], Return (RetPred None)).
Proof.
  split; [discriminate|]. split; [discriminate|].
  apply clfreport_unknown_devcheck; discriminate.
Defined.

Lemma GenerateAUC_aucType_default_witness :
  result (@GenerateAUC sample_library tie_scores [1; 1; 0; 0]%Q "roc" false
            false) =
  result (@GenerateAUC sample_library tie_scores [1; 1; 0; 0]%Q "SS" false
            false).
Proof.
  apply (proj1 (GenerateAUC_aucType_default (L := sample_library) tie_scores
                  [1; 1; 0; 0]%Q "roc" false false eq_refl
                  ltac:(discriminate) ltac:(discriminate))).
Defined.

(** With [debug] set and two rows, the debug output asks for a third row of
    the products. *)
Example find_top_three_factors_debug_two_rows :
  result (@find_top_three_factors sample_library true X3 [1; 2; 3]%Q X2
            "regression" false) = Raise IndexError.
Proof. vm_compute. reflexivity. Qed.

(** The same call without [debug] ranks the columns of the two rows. *)
Example find_top_three_factors_two_rows :
  result (@find_top_three_factors sample_library false X3 [1; 2; 3]%Q X2
            "regression" false) =
  Return (["a1c"; "age"], ["age"; "a1c"], ["bmi"; "bmi"]).
Proof. vm_compute. reflexivity. Qed.

(** Two points nearest to the corner: the call prints the area and stops. *)
Example GenerateAUC_two_nearest_points :
  @GenerateAUC sample_library tie_scores tie_labels "SS" false false =
  ([EMetric "roc_curve" [VVec tie_labels; VVec tie_scores];
    EMetric "auc" [VVec tie_fpr; VVec tie_tpr];
    EPrint [VFmt "Area under ROC curve (AUC): %0.2f"
              [VNum (trapezoid tie_fpr tie_tpr)]]],
   Raise TypeError).
Proof. vm_compute. reflexivity. Qed.

(** A regression run in development mode stops at the mean squared error of
    [(y_test, None)], before any metric is printed. *)
Example clfreport_regression_yesdev_run :
  @clfreport sample_library "regression" false "yesdev" LinearRegression X3
    [1; 2; 3]%Q X2 (Some [1; 2]%Q) None 4 false false None =
  ([EPrint [VStr "\n"; VEst LinearRegression];
    EFit LinearRegression X3 [1; 2; 3]%Q;
    EPredict "predict" (Fitted LinearRegression X3 [1; 2; 3]%Q) X2;
    EPrint [VStr "##########################################################"];
    EPrint [VStr "Model accuracy:"];
    EMetric "mean_squared_error" [VVec [1; 2]%Q; VNone]],
   Raise (LibraryError
            "Expected sequence or array-like, got <class 'NoneType'>")).
Proof. vm_compute. reflexivity. Qed.

(** A classification model is fitted for the factor ranking and never
    written to disk. *)
Example find_top_three_factors_classification_run :
  trace (@find_top_three_factors sample_library false X3 [1; 0; 1]%Q X2
           "classification" false) =
  [EFit LogisticRegression X3 [1; 0; 1]%Q;
   EPredict "predict_proba" (Fitted LogisticRegression X3 [1; 0; 1]%Q) X2].
Proof. vm_compute. reflexivity. Qed.

(** * Further properties *)

(** ** What each function may do *)

Section Silent.
Context {L : Library}.

Lemma trace_np_add a b : trace (np_add a b) = [].
Proof.
  unfold np_add.
  repeat match goal with |- context [if ?c then _ else _] => destruct c end;
    reflexivity.
Qed.

Lemma trace_np_min d : trace (np_min d) = [].
Proof. destruct d; reflexivity. Qed.

Lemma trace_float_of_array a : trace (float_of_array a) = [].
Proof. destruct a as [|x [|y a]]; reflexivity. Qed.

Lemma trace_take a ind : trace (take a ind) = [].
Proof.
  induction ind as [|i ind IH]; simpl; [reflexivity|].
  rewrite trace_bind, trace_index. simpl.
  destruct (result (index a i)); [|reflexivity].
  rewrite trace_bind, IH. simpl.
  destruct (result (take a ind)); reflexivity.
Qed.

End Silent.

Ltac silent_leaf :=
  apply trace_all_silent;
  first [ reflexivity | apply trace_lift | apply trace_lift_unit
        | apply trace_local | apply trace_index | apply trace_column
        | apply trace_method | apply trace_get_coef
        | apply trace_broadcast_mul | apply trace_rank_rows
        | apply trace_np_add | apply trace_np_min
        | apply trace_float_of_array | apply trace_take ].

Ltac events :=
  repeat first
    [ apply trace_all_bind; [|intros]
    | apply trace_all_emit; simpl; solve [auto]
    | apply trace_all_for_each; intros
    | silent_leaf
    | progress unfold fit, predict, predict_proba, metric, load_pickle_file,
        save_object_as_pickle, write_feature_importances, plt,
        print_regression_metrics, print_classification_metrics, print
    | match goal with
      | |- trace_all _ (if ?c then _ else _) => destruct c
      | |- trace_all _ (match ?x with _ => _ end) => destruct x
      end ].

Section Events.
Context {L : Library}.

(** X1.  Whatever its arguments, [GenerateAUC] only prints, computes
    metrics and plots: it fits and predicts nothing and touches no file.  It
    plots only when [plotFlg] is set, and the metrics it asks for are those
    of one curve: the precision-recall curve and the average precision when
    the upper-cased [aucType] is 'PR', the ROC curve and its area in every
    other case. *)
Theorem GenerateAUC_events :
  forall predictions labels aucType plotFlg allCutoffsFlg,
    trace_all (curve_event (upper aucType =? "PR") plotFlg)
      (GenerateAUC predictions labels aucType plotFlg allCutoffsFlg).
Proof.
  intros. unfold GenerateAUC.
  destruct (negb (Nat.eqb (length predictions) (length labels)));
    [apply trace_all_silent; reflexivity|].
  destruct (upper aucType =? "SS") eqn:Ess.
  - apply String.eqb_eq in Ess. rewrite Ess.
    change ("SS" =? "PR") with false. change ("SS" =? "SS") with true.
    cbv beta iota delta [negb andb]. rewrite bind_ret_l.
    change ("SS" =? "SS") with true. cbv iota. events.
  - destruct (upper aucType =? "PR") eqn:Epr.
    + apply String.eqb_eq in Epr. rewrite Epr.
      cbv beta iota delta [negb andb]. rewrite bind_ret_l.
      change ("PR" =? "SS") with false. cbv iota. events.
    + cbv beta iota delta [negb andb].
      unfold print. rewrite bind_assoc. apply trace_all_bind;
        [apply trace_all_emit; exact I|intros _].
      rewrite bind_ret_l. change ("SS" =? "SS") with true. cbv iota. events.
Qed.

(** X10.  Whatever its arguments, [find_top_three_factors] only prints,
    fits, predicts and pickles, and the only pickle file it reads or writes
    is 'factorlogit.pkl': it computes no metric, sets up no grid search and
    plots nothing. *)
Theorem find_top_three_factors_events :
  forall debug X_train y_train X_test model_type use_saved_model,
    trace_all factor_event
      (find_top_three_factors debug X_train y_train X_test model_type
         use_saved_model).
Proof. intros. unfold find_top_three_factors. events. Qed.

End Events.

(** ** Runs that fit no model, or whose fit fails *)

Ltac in_list :=
  intros; simpl in *;
  repeat match goal with
         | H : _ \/ _ |- _ => destruct H as [H|H]; try discriminate H
         | H : False |- _ => destruct H
         | H : (_, _) = (_, _) |- _ => injection H; clear H; intros; subst
         | H : _ :: _ = _ :: _ |- _ => injection H; clear H; intros; subst
         | H : VNum _ = VNum _ |- _ => injection H; clear H; intros; subst
         | H : VStr _ = VStr _ |- _ => injection H; clear H; intros; subst
         | H : _ = ?x |- _ => is_var x; subst x
         | H : ?x = _ |- _ => is_var x; subst x
         end;
  try discriminate; eauto.

(** A path that did not return is none of the runs that returned [v]. *)
Ltac returned :=
  intros;
  try match goal with
      | H : Raise _ = Return _ |- _ => discriminate H
      end;
  try match goal with
      | H : Return _ = Return ?v |- _ => injection H as <-
      end.

Section Clfreport_runs.
Context {L : Library}.

Lemma column_returns j a r :
  result (column j a) = r ->
  r = Raise IndexError \/ r = Return (map (fun row => nth j row 0%Q) a).
Proof.
  unfold column. intros <-.
  match goal with |- context [if ?c then _ else _] => destruct c end; auto.
Qed.

(** X11.  Without a saved model, a model type other than 'classification'
    and 'regression' leaves [clf] at [None]: the call prints at most its
    debug lines and ends in the [AttributeError] of [clf.coef_]. *)
Theorem find_top_three_factors_unknown_model_type :
  forall debug X_train y_train X_test model_type,
    model_type <> "classification" -> model_type <> "regression" ->
    let run :=
      find_top_three_factors debug X_train y_train X_test model_type false in
    result run = Raise (AttributeError "coef_")
    /\ trace_all is_print run.
Proof.
  intros debug X_train y_train X_test model_type Hc Hr run.
  unfold run, find_top_three_factors.
  apply String.eqb_neq in Hc, Hr. rewrite Hc, Hr.
  destruct debug; split; try reflexivity; repeat constructor.
Qed.

(** X6.  In development mode a model type other than 'classification' and
    'regression' fits nothing, predicts nothing and computes no metric.  The
    run returns only by falling through to line 123, with [None], which
    takes an estimator with a [best_estimator_] and no feature importances;
    for an estimator with neither attribute it ends in the
    [UnboundLocalError] of [roc_auc]. *)
Theorem clfreport_yesdev_unknown_modeltype :
  forall modeltype debug algo X_train y_train X_test y_test param cores tune
         use_saved_model col_list,
    modeltype <> "classification" -> modeltype <> "regression" ->
    let run :=
      clfreport modeltype debug "yesdev" algo X_train y_train X_test y_test
        param cores tune use_saved_model col_list in
    let clf := if tune then GridSearchCV algo param 5 "roc_auc" cores
               else algo in
    (fits (trace run) = [] /\ predicts (trace run) = []
     /\ metric_calls (trace run) = [])
    /\ (forall v, result run = Return v ->
          v = RetPred None
          /\ hasattr clf "feature_importances_" = false
          /\ hasattr clf "best_estimator_" = true
          /\ hasattr (best_estimator_ clf) "feature_importances_" = false)
    /\ (hasattr clf "feature_importances_" = false ->
        hasattr clf "best_estimator_" = false ->
        result run = Raise (UnboundLocalError "roc_auc")).
Proof.
  intros modeltype debug algo X_train y_train X_test y_test param cores tune
    use_saved_model col_list Hc Hr run clf.
  apply String.eqb_neq in Hc, Hr.
  split; [|split].
  - change (post run (fun t _ =>
              fits t = [] /\ predicts t = [] /\ metric_calls t = [])).
    unfold run, clfreport. rewrite Hc, Hr. wp; repeat split.
  - change (post run (fun _ r =>
      forall v, r = Return v ->
        v = RetPred None
        /\ hasattr clf "feature_importances_" = false
        /\ hasattr clf "best_estimator_" = true
        /\ hasattr (best_estimator_ clf) "feature_importances_" = false)).
    unfold run, clf, clfreport. rewrite Hc, Hr.
    wp; returned;
      repeat match goal with
             | H : _ && _ = false |- _ =>
               apply andb_false_iff in H; destruct H
             | H : negb _ = false |- _ => apply negb_false_iff in H
             end;
      repeat split; congruence.
  - intros Hfi Hbe.
    change (post run (fun _ r => r = Raise (UnboundLocalError "roc_auc"))).
    unfold run, clf, clfreport in *. rewrite Hc, Hr.
    wp; try reflexivity; try discriminate; exfalso;
      repeat match goal with
             | H : _ && _ = false |- _ =>
               apply andb_false_iff in H; destruct H
             | H : negb _ = false |- _ => apply negb_false_iff in H
             end;
      congruence.
Qed.

(** X7.  When the fit raises, in development mode for the two model types
    or in production without a saved model, [clfreport] ends in that very
    exception, having predicted nothing, computed no metric and written no
    file. *)
Theorem clfreport_fit_failure :
  forall modeltype debug devcheck algo X_train y_train X_test y_test param
         cores tune use_saved_model col_list e,
    let run :=
      clfreport modeltype debug devcheck algo X_train y_train X_test y_test
        param cores tune use_saved_model col_list in
    let clf := if (devcheck =? "yesdev") && tune
               then GridSearchCV algo param 5 "roc_auc" cores else algo in
    fit_raises clf X_train y_train = Some e ->
    (devcheck = "yesdev"
     /\ (modeltype = "classification" \/ modeltype = "regression"))
    \/ (devcheck = "notdev" /\ use_saved_model = false) ->
    result run = Raise (LibraryError e)
    /\ predicts (trace run) = [] /\ metric_calls (trace run) = []
    /\ pickle_writes (trace run) = [].
Proof.
  intros modeltype debug devcheck algo X_train y_train X_test y_test param
    cores tune use_saved_model col_list e run clf Hfit Hmode.
  change (post run (fun t r =>
            r = Raise (LibraryError e)
            /\ predicts t = [] /\ metric_calls t = []
            /\ pickle_writes t = [])).
  unfold run, clf, clfreport in *. clear run clf.
  destruct Hmode as [[-> [-> | ->]] | [-> ->]].
  - change ("yesdev" =? "yesdev") with true in *.
    destruct tune; cbn [andb] in Hfit;
      (wp; try congruence; repeat split; congruence).
  - change ("yesdev" =? "yesdev") with true in *.
    destruct tune; cbn [andb] in Hfit;
      (wp; try congruence; repeat split; congruence).
  - change ("notdev" =? "yesdev") with false in *. cbn [andb] in Hfit.
    wp; try congruence; repeat split; congruence.
Qed.

(** X5.  A classification run in development mode that returns has
    predicted with the fitted estimator: [y_pred] is the second column of
    its [predict_proba], [roc_auc] the ROC-AUC score of [(y_test, y_pred)],
    and the value is the pair, the triple with the estimator, or [y_pred]
    alone, as [yesdev_value] tells by the attributes of the estimator.  The
    AU_ROC printed is that score, and the AU_PR printed is the area under
    the precision-recall curve of [(y_test, y_pred)], recall on the x
    axis. *)
Theorem clfreport_classification_yesdev :
  forall debug algo X_train y_train X_test y_test param cores tune
         use_saved_model col_list,
    let run :=
      clfreport "classification" debug "yesdev" algo X_train y_train X_test
        y_test param cores tune use_saved_model col_list in
    let clf :=
      Fitted (if tune then GridSearchCV algo param 5 "roc_auc" cores
              else algo) X_train y_train in
    (forall v, result run = Return v ->
       exists proba roc_auc,
         predict_proba_value clf X_test = inr proba
         /\ let y_pred := np_squeeze (map (fun row => nth 1 row 0%Q) proba) in
            roc_auc_score y_test y_pred = inr roc_auc
            /\ v = yesdev_value clf (Some y_pred) roc_auc)
    /\ (forall x, In [VStr "AU_ROC ScoreX:"; VNum x] (printed (trace run)) ->
          exists proba,
            predict_proba_value clf X_test = inr proba
            /\ roc_auc_score y_test
                 (np_squeeze (map (fun row => nth 1 row 0%Q) proba)) = inr x)
    /\ (forall x, In [VStr "\nAU_PR Score:"; VNum x] (printed (trace run)) ->
          exists proba precision recall thresholds,
            predict_proba_value clf X_test = inr proba
            /\ precision_recall_curve y_test
                 (np_squeeze (map (fun row => nth 1 row 0%Q) proba)) =
               inr (precision, recall, thresholds)
            /\ auc recall precision = inr x).
Proof.
  intros until col_list. intros run clf.
  split; [|split].
  - change (post run (fun _ r =>
      forall v, r = Return v ->
        exists proba roc_auc,
          predict_proba_value clf X_test = inr proba
          /\ let y_pred := np_squeeze (map (fun row => nth 1 row 0%Q) proba) in
             roc_auc_score y_test y_pred = inr roc_auc
             /\ v = yesdev_value clf (Some y_pred) roc_auc)).
    unfold run, clf, clfreport, yesdev_value.
    wp; returned;
      repeat match goal with
             | H : result (column _ _) = _ |- _ =>
               apply column_returns in H; destruct H as [H|H];
               [discriminate H|injection H as ->]
             | H : Some _ = Some _ |- _ => injection H as ->
             end;
      do 2 eexists; (split; [eassumption|]); cbv zeta;
      (split; [eassumption|]);
      repeat match goal with
             | H : _ = true |- _ => rewrite H
             | H : _ = false |- _ => rewrite H
             end;
      reflexivity.
  - change (post run (fun t _ =>
      forall x, In [VStr "AU_ROC ScoreX:"; VNum x] (printed t) ->
        exists proba,
          predict_proba_value clf X_test = inr proba
          /\ roc_auc_score y_test
               (np_squeeze (map (fun row => nth 1 row 0%Q) proba)) = inr x)).
    unfold run, clf, clfreport.
    wp;
      repeat match goal with
             | H : result (column _ _) = _ |- _ =>
               apply column_returns in H; destruct H as [H|H];
               [discriminate H|injection H as ->]
             end;
      in_list.
  - change (post run (fun t _ =>
      forall x, In [VStr "\nAU_PR Score:"; VNum x] (printed t) ->
        exists proba precision recall thresholds,
          predict_proba_value clf X_test = inr proba
          /\ precision_recall_curve y_test
               (np_squeeze (map (fun row => nth 1 row 0%Q) proba)) =
             inr (precision, recall, thresholds)
          /\ auc recall precision = inr x)).
    unfold run, clf, clfreport.
    wp;
      repeat match goal with
             | H : result (column _ _) = _ |- _ =>
               apply column_returns in H; destruct H as [H|H];
               [discriminate H|injection H as ->]
             end;
      in_list; do 4 eexists; eauto.
Qed.

End Clfreport_runs.

(** ** clfreport: production runs *)

Section Clfreport_notdev.
Context {L : Library}.

(** X8.  A production run ([devcheck = 'notdev']) only fits, predicts and
    pickles, and prints nothing but the debug line; when it returns, the
    value is [y_pred] alone, computed with the unpickled model or with the
    freshly fitted [algo]: the second column of [predict_proba] for a
    classification, [predict] for a regression, [None] for any other model
    type. *)
Theorem clfreport_notdev_value :
  forall modeltype debug algo X_train y_train X_test y_test param cores tune
         use_saved_model col_list,
    let run :=
      clfreport modeltype debug "notdev" algo X_train y_train X_test y_test
        param cores tune use_saved_model col_list in
    trace_all notdev_event run
    /\ forall v, result run = Return v ->
         exists clf,
           (if use_saved_model
            then load_pickle_file_value "probability.pkl" = inr clf
            else clf = Fitted algo X_train y_train)
           /\ ((modeltype = "classification"
                /\ exists proba,
                     predict_proba_value clf X_test = inr proba
                     /\ v = RetPred
                              (Some (np_squeeze
                                       (map (fun row => nth 1 row 0%Q) proba))))
               \/ (modeltype = "regression"
                   /\ exists y_pred,
                        predict_value clf X_test = inr y_pred
                        /\ v = RetPred (Some y_pred))
               \/ (modeltype <> "classification"
                   /\ modeltype <> "regression" /\ v = RetPred None)).
Proof.
  intros until col_list. intros run. split.
  - unfold run, clfreport.
    change ("notdev" =? "yesdev") with false.
    change ("notdev" =? "notdev") with true. cbv iota.
    trace_all_steps.
  - change (post run (fun _ r =>
      forall v, r = Return v ->
        exists clf,
          (if use_saved_model
           then load_pickle_file_value "probability.pkl" = inr clf
           else clf = Fitted algo X_train y_train)
          /\ ((modeltype = "classification"
               /\ exists proba,
                    predict_proba_value clf X_test = inr proba
                    /\ v = RetPred
                             (Some (np_squeeze
                                      (map (fun row => nth 1 row 0%Q) proba))))
              \/ (modeltype = "regression"
                  /\ exists y_pred,
                       predict_value clf X_test = inr y_pred
                       /\ v = RetPred (Some y_pred))
              \/ (modeltype <> "classification"
                  /\ modeltype <> "regression" /\ v = RetPred None)))).
    unfold run, clfreport.
    wp; returned;
      repeat match goal with
             | H : result (column _ _) = _ |- _ =>
               apply column_returns in H; destruct H as [H|H];
               [discriminate H|injection H as ->]
             | H : (_ =? _) = true |- _ => apply String.eqb_eq in H; subst
             | H : (_ =? _) = false |- _ => apply String.eqb_neq in H
             end;
      eexists; (split; [first [eassumption|reflexivity]|]);
      first [ left; split; [reflexivity|]; eexists; split;
              [eassumption|reflexivity]
            | right; left; split; [reflexivity|]; eexists; split;
              [eassumption|reflexivity]
            | right; right; repeat split; assumption ].
Qed.

Lemma result_bind_congr {A B} (m1 m2 : M A) (f : A -> M B) :
  result m1 = result m2 -> result (bind m1 f) = result (bind m2 f).
Proof. intros H. rewrite !result_bind, H. reflexivity. Qed.


(** X9.  In production, a run that loads 'probability.pkl' ends as the run
    that fitted and saved the model did, on the same [X_test] and model
    type, when the file holds the object that run saved; the estimator and
    the training data handed to the loading run play no part. *)
Theorem clfreport_notdev_round_trip :
  forall modeltype X_test
         debug algo X_train y_train y_test param cores tune col_list
         debug' algo' X_train' y_train' y_test' param' cores' tune' col_list',
    fit_raises algo X_train y_train = None ->
    save_object_as_pickle_raises "probability.pkl"
      (Fitted algo X_train y_train) = None ->
    load_pickle_file_value "probability.pkl" =
      inr (Fitted algo X_train y_train) ->
    result (clfreport modeltype debug' "notdev" algo' X_train' y_train' X_test
              y_test' param' cores' tune' true col_list') =
    result (clfreport modeltype debug "notdev" algo X_train y_train X_test
              y_test param cores tune false col_list).
Proof.
  intros until col_list'. intros Hfit Hsave Hload.
  unfold clfreport.
  change ("notdev" =? "yesdev") with false.
  change ("notdev" =? "notdev") with true. cbv iota.
  apply result_bind_congr.
  rewrite (result_load_ok _ _ Hload).
  rewrite result_bind.
  assert (Hdbg : forall x, result (if debug then print x else ret tt)
                           = Return tt)
    by (intros; destruct debug; reflexivity).
  rewrite Hdbg. cbv beta iota.
  rewrite result_bind, (result_fit_ok _ _ _ Hfit). cbv beta iota.
  rewrite result_bind, (result_save_ok _ _ Hsave). reflexivity.
Qed.

End Clfreport_notdev.

(** ** find_top_three_factors: the model and the shape of the data *)

Section Factors_shape.
Context {L : Library}.





End Factors_shape.

(** ** GenerateAUC: the precision-recall curve *)

Section Precision_recall.
Context {L : Library}.

Lemma take_result a ind :
  take a ind =
  if forallb (fun i => Nat.ltb i (length a)) ind
  then ret (map (fun i => nth i a 0%Q) ind)
  else raise IndexError.
Proof.
  induction ind as [|i ind IH]; [reflexivity|].
  cbn [take forallb map]. destruct (Nat.ltb i (length a)) eqn:Hi.
  - apply Nat.ltb_lt in Hi. rewrite (index_lt a i 0%Q Hi), bind_ret_l, IH.
    cbn [andb]. destruct (forallb _ ind); [rewrite bind_ret_l|]; reflexivity.
  - apply Nat.ltb_ge in Hi. unfold index.
    rewrite (proj2 (nth_error_None a i) Hi). reflexivity.
Qed.

Lemma nth_sq_distances a b ca cb j :
  length a = length b -> j < length a ->
  nth j (map (fun p => (fst p + snd p)%Q)
           (combine (sq_dist a ca) (sq_dist b cb))) 0%Q =
  ((nth j a 0 - ca) ^ 2 + (nth j b 0 - cb) ^ 2)%Q.
Proof.
  intros Hlen Hj. unfold sq_dist.
  rewrite (nth_map_lt _ _ _ _ (0%Q, 0%Q))
    by (rewrite length_combine, !length_map, <- Hlen, Nat.min_id; exact Hj).
  rewrite combine_nth by (rewrite !length_map; exact Hlen).
  simpl fst. simpl snd.
  rewrite (nth_map_lt _ a j _ 0%Q) by exact Hj.
  rewrite (nth_map_lt _ b j _ 0%Q) by (rewrite <- Hlen; exact Hj).
  reflexivity.
Qed.

Lemma in_where_min x rest (dist : nat -> Q) n k :
  length (x :: rest) = n ->
  (forall j, j < n -> nth j (x :: rest) 0%Q = dist j) ->
  In k (np_where_eq (x :: rest) (fold_left Qsmaller rest x)) <->
  k < n /\ forall j, j < n -> (dist k <= dist j)%Q.
Proof.
  intros Hd Hnth.
  destruct (fold_smaller_spec rest x) as [Hin Hle].
  rewrite in_np_where_eq, Hd.
  split; intros [Hk Hmin]; (split; [exact Hk|]).
  - intros j Hj. rewrite <- (Hnth k Hk), <- (Hnth j Hj), Hmin.
    apply Hle, nth_In. rewrite Hd. exact Hj.
  - apply Qle_antisym.
    + destruct (In_nth _ _ 0%Q Hin) as (j0 & Hj0 & Ej0).
      rewrite Hd in Hj0. rewrite <- Ej0, (Hnth k Hk), (Hnth j0 Hj0).
      apply Hmin, Hj0.
    + apply Hle, nth_In. rewrite Hd. exact Hk.
Qed.

Lemma GenerateAUC_PR_result predictions labels plotFlg allCutoffsFlg
  precision recall thresh area :
  length predictions = length labels ->
  precision_recall_curve (Some labels) predictions =
    inr (precision, recall, thresh) ->
  length precision = length recall ->
  length precision = S (length thresh) ->
  average_precision_score labels predictions = inr area ->
  let d := map (fun p => (fst p + snd p)%Q)
             (combine (sq_dist precision 1) (sq_dist recall 1)) in
  exists plots : M unit,
    ((forall fn args, plt_raises fn args = None) -> result plots = Return tt)
    /\ result (GenerateAUC predictions labels "PR" plotFlg allCutoffsFlg) =
       match d with
       | [] => Raise ValueError
       | x :: rest =>
         let ind := np_where_eq d (fold_left Qsmaller rest x) in
         if forallb (fun i => Nat.ltb i (length thresh)) ind then
           match ind with
           | [k] =>
             match result plots with
             | Return _ =>
               Return [("AU_PR", area); ("BestCutoff", nth k thresh 0%Q);
                       ("BestPrecision", nth k precision 0%Q);
                       ("BestRecall", nth k recall 0%Q)]
             | Raise e => Raise e
             end
           | _ => Raise TypeError
           end
         else Raise IndexError
       end.
Proof.
  intros Hlen Hprc Hpr Hpt Haps d.
  assert (Hd : length d = length precision).
  { unfold d, sq_dist. rewrite length_map, length_combine, !length_map.
    rewrite <- Hpr. apply Nat.min_id. }
  remember (result (GenerateAUC predictions labels "PR" plotFlg allCutoffsFlg))
    as r eqn:Hr.
  unfold GenerateAUC in Hr. rewrite Hlen, Nat.eqb_refl in Hr.
  change (upper "PR") with "PR" in Hr.
  change (String.eqb "PR" "SS") with false in Hr.
  change (String.eqb "PR" "PR") with true in Hr.
  cbv beta iota delta [negb andb] in Hr.
  rewrite bind_ret_l in Hr. cbv beta in Hr.
  change (String.eqb "PR" "SS") with false in Hr. cbv iota in Hr.
  rewrite result_bind in Hr.
  erewrite result_metric_ok in Hr by exact Hprc. cbv beta iota in Hr.
  rewrite result_bind in Hr.
  erewrite result_metric_ok in Hr by exact Haps. cbv beta iota in Hr.
  rewrite result_bind in Hr. cbn [result print emit snd] in Hr.
  cbv beta iota in Hr.
  rewrite np_add_same_length in Hr
    by (unfold sq_dist; rewrite !length_map; exact Hpr).
  rewrite bind_ret_l in Hr. fold d in Hr.
  destruct d as [|x rest] eqn:Ed.
  { exists (ret tt). split; [reflexivity|exact Hr]. }
  cbn [np_min] in Hr. rewrite bind_ret_l in Hr. cbv zeta.
  set (ind := np_where_eq (x :: rest) (fold_left Qsmaller rest x)) in *.
  assert (Hind : forall i, In i ind -> i < length precision).
  { intros i Hi. apply in_np_where_eq in Hi. rewrite <- Hd. tauto. }
  rewrite (take_in_range precision) in Hr by auto.
  rewrite bind_ret_l in Hr.
  rewrite (take_in_range recall) in Hr by (intros; rewrite <- Hpr; auto).
  rewrite bind_ret_l in Hr.
  rewrite (take_result thresh) in Hr.
  destruct (forallb (fun i => Nat.ltb i (length thresh)) ind) eqn:Hall;
    [|exists (ret tt); split; [reflexivity|exact Hr]].
  rewrite bind_ret_l in Hr.
  destruct ind as [|k [|k2 ind]];
    [exists (ret tt); split; [reflexivity|exact Hr]
    |
    |exists (ret tt); split; [reflexivity|exact Hr]].
  cbn [map float_of_array] in Hr. rewrite !bind_ret_l in Hr.
  rewrite result_bind in Hr. cbn [result print emit snd] in Hr.
  cbv beta iota in Hr.
  rewrite result_bind in Hr.
  match type of Hr with
  | context [result (if allCutoffsFlg then ?a else ?b)] =>
    assert (Hcut : result (if allCutoffsFlg then a else b) = Return tt)
  end.
  { destruct allCutoffsFlg; [|reflexivity].
    rewrite result_bind. cbn [result print emit snd]. cbv beta iota.
    apply result_for_each_ok. intros i Hi. apply in_seq in Hi.
    rewrite (index_lt thresh i 0%Q) by lia. rewrite bind_ret_l.
    rewrite (index_lt precision i 0%Q) by lia. rewrite bind_ret_l.
    rewrite (index_lt recall i 0%Q) by lia. rewrite bind_ret_l.
    reflexivity. }
  rewrite Hcut in Hr. cbv beta iota in Hr.
  rewrite result_bind in Hr.
  cbn [index nth_error] in Hr. rewrite !bind_ret_l in Hr.
  match type of Hr with
  | context [result (if plotFlg then ?a else ?b)] =>
    exists (if plotFlg then a else b)
  end.
  split; [|exact Hr].
  intros Hplt. destruct plotFlg; [|reflexivity].
  repeat (rewrite result_bind, result_plt_ok by apply Hplt; cbv beta iota).
  apply result_plt_ok, Hplt.
Qed.

(** X4.  For 'PR', with a precision-recall curve of the library's shape
    (one threshold fewer than points): a returned dictionary holds the
    average precision and, of a point nearest to (1, 1) that has a
    threshold, the threshold, the precision and the recall; it is returned
    when that point is the only nearest one and plotting does not fail; and
    if the last point, which has no threshold, is among the nearest, the
    call ends in an [IndexError]. *)
Theorem GenerateAUC_PR_best_cutoff :
  forall predictions labels plotFlg allCutoffsFlg precision recall thresh area,
    length predictions = length labels ->
    precision_recall_curve (Some labels) predictions =
      inr (precision, recall, thresh) ->
    length precision = length recall ->
    length precision = S (length thresh) ->
    average_precision_score labels predictions = inr area ->
    let run := GenerateAUC predictions labels "PR" plotFlg allCutoffsFlg in
    (forall dict, result run = Return dict ->
       exists k, nearest_pr precision recall k /\ k < length thresh
                 /\ lookup "AU_PR" dict = Some area
                 /\ lookup "BestCutoff" dict = Some (nth k thresh 0%Q)
                 /\ lookup "BestPrecision" dict = Some (nth k precision 0%Q)
                 /\ lookup "BestRecall" dict = Some (nth k recall 0%Q))
    /\ (nearest_pr precision recall (length thresh) ->
        result run = Raise IndexError)
    /\ (forall k,
          nearest_pr precision recall k -> k < length thresh ->
          (forall j, nearest_pr precision recall j -> j = k) ->
          (forall fn args, plt_raises fn args = None) ->
          result run =
          Return [("AU_PR", area); ("BestCutoff", nth k thresh 0%Q);
                  ("BestPrecision", nth k precision 0%Q);
                  ("BestRecall", nth k recall 0%Q)]).
Proof.
  intros predictions labels plotFlg allCutoffsFlg precision recall thresh area
    Hlen Hprc Hpr Hpt Haps run.
  destruct (GenerateAUC_PR_result predictions labels plotFlg allCutoffsFlg
              precision recall thresh area Hlen Hprc Hpr Hpt Haps)
    as (plots & Hplots & Hrun).
  fold run in Hrun.
  destruct (map (fun p => (fst p + snd p)%Q)
              (combine (sq_dist precision 1) (sq_dist recall 1)))
    as [|x rest] eqn:Ed.
  { apply (f_equal (@length Q)) in Ed. unfold sq_dist in Ed.
    rewrite length_map, length_combine, !length_map, <- Hpr, Nat.min_id, Hpt
      in Ed.
    discriminate Ed. }
  assert (Hd : length (x :: rest) = length precision).
  { rewrite <- Ed. unfold sq_dist.
    rewrite length_map, length_combine, !length_map, <- Hpr. apply Nat.min_id. }
  assert (Hmin : forall k,
            In k (np_where_eq (x :: rest) (fold_left Qsmaller rest x)) <->
            nearest_pr precision recall k).
  { intros k. apply in_where_min; [exact Hd|].
    intros j Hj. rewrite <- Ed. apply nth_sq_distances; assumption. }
  pose proof (NoDup_np_where_eq (x :: rest) (fold_left Qsmaller rest x)) as Hnd.
  cbv zeta in Hrun.
  destruct (forallb (fun i => Nat.ltb i (length thresh))
              (np_where_eq (x :: rest) (fold_left Qsmaller rest x)))
    eqn:Hall.
  - rewrite forallb_forall in Hall.
    assert (Hlt : forall k, nearest_pr precision recall k -> k < length thresh).
    { intros k Hk. apply Nat.ltb_lt, Hall, Hmin, Hk. }
    destruct (np_where_eq (x :: rest) (fold_left Qsmaller rest x))
      as [|k [|k' ind]].
    + split; [|split].
      * intros dict Hdict. congruence.
      * intros Hk. apply Hlt in Hk. lia.
      * intros k Hk. apply Hmin in Hk. destruct Hk.
    + assert (Hk : nearest_pr precision recall k)
        by (apply Hmin; left; reflexivity).
      split; [|split].
      * intros dict Hdict. exists k. rewrite Hdict in Hrun.
        destruct (result plots); [|discriminate].
        injection Hrun as ->. repeat split; try apply Hk; auto.
      * intros Hlast. apply Hlt in Hlast. lia.
      * intros j Hj _ _ Hplt. apply Hmin in Hj. destruct Hj as [<-|[]].
        rewrite Hrun, (Hplots Hplt). reflexivity.
    + split; [|split].
      * intros dict Hdict. congruence.
      * intros Hlast. apply Hlt in Hlast. lia.
      * intros j Hj _ Huniq. exfalso.
        assert (k = j) by (apply Huniq, Hmin; left; reflexivity).
        assert (k' = j) by (apply Huniq, Hmin; right; left; reflexivity).
        subst. inversion Hnd as [|? ? Hnotin _]. apply Hnotin. left.
        reflexivity.
  - split; [|split].
    + intros dict Hdict. congruence.
    + intros _. exact Hrun.
    + intros k Hk Hlt Huniq. exfalso.
      assert (Hone : np_where_eq (x :: rest) (fold_left Qsmaller rest x) = [k]).
      { destruct (np_where_eq (x :: rest) (fold_left Qsmaller rest x))
          as [|a [|b l]].
        - apply Hmin in Hk. destruct Hk.
        - f_equal. apply Huniq, Hmin. left. reflexivity.
        - exfalso.
          assert (a = k) by (apply Huniq, Hmin; left; reflexivity).
          assert (b = k) by (apply Huniq, Hmin; right; left; reflexivity).
          subst. inversion Hnd as [|? ? Hnotin _]. apply Hnotin. left.
          reflexivity. }
      rewrite Hone in Hall. cbn [forallb] in Hall.
      apply Nat.ltb_lt in Hlt. rewrite Hlt in Hall. discriminate Hall.
Qed.

End Precision_recall.

(** ** GenerateAUC: what is printed *)

Section Curve_output.
Context {L : Library}.

Lemma bind_pair {A B} t (a : A) (f : A -> M B) :
  bind (t, Return a) f = (t ++ trace (f a), result (f a)).
Proof. unfold bind, trace, result. destruct (f a). reflexivity. Qed.

Lemma for_each_emits {A} (xs : list A) body (ev : A -> event) :
  (forall x, In x xs -> body x = emit (ev x)) ->
  for_each xs body = (map ev xs, Return tt).
Proof.
  induction xs as [|x xs IH]; intros Hb; [reflexivity|].
  cbn [for_each map]. rewrite Hb by (left; reflexivity).
  rewrite bind_emit, IH by (intros; apply Hb; right; assumption).
  reflexivity.
Qed.

Lemma only_member (l : list nat) k :
  NoDup l -> (forall j, In j l <-> j = k) -> l = [k].
Proof.
  intros Hnd Hin. destruct l as [|a [|b l]].
  - exfalso. apply (Hin k). reflexivity.
  - f_equal. apply Hin. left. reflexivity.
  - exfalso. inversion Hnd as [|? ? Hnotin _]; subst. apply Hnotin.
    assert (a = k) as -> by (apply Hin; left; reflexivity).
    assert (b = k) as -> by (apply Hin; right; left; reflexivity).
    left. reflexivity.
Qed.

(** X3.  Without plots, for a ROC curve with exactly one point nearest to
    (0, 1), the whole run of [GenerateAUC] for 'SS' is: the curve and its
    area are computed, the area and the ideal cutoff are printed, then, with
    [allCutoffsFlg], a header and one line per threshold of the curve, in the
    order of the curve, with its rates; and the dictionary is returned. *)
Theorem GenerateAUC_SS_output :
  forall predictions labels allCutoffsFlg fpr tpr thresh area k,
    length predictions = length labels ->
    roc_curve labels predictions = inr (fpr, tpr, thresh) ->
    length fpr = length tpr -> length tpr = length thresh ->
    auc fpr tpr = inr area ->
    nearest_corner fpr tpr k ->
    (forall j, nearest_corner fpr tpr j -> j = k) ->
    GenerateAUC predictions labels "SS" false allCutoffsFlg =
    ([EMetric "roc_curve" [VVec labels; VVec predictions];
      EMetric "auc" [VVec fpr; VVec tpr];
      EPrint [VFmt "Area under ROC curve (AUC): %0.2f" [VNum area]];
      EPrint [VFmt "Ideal cutoff is %0.2f, yielding TPR of %0.2f and FPR of %0.2f"
                [VNum (nth k thresh 0%Q); VNum (nth k tpr 0%Q);
                 VNum (nth k fpr 0%Q)]]]
     ++ (if allCutoffsFlg
         then EPrint [VFmt "%-7s %-6s %-5s"
                        [VStr "Thresh"; VStr "TPR"; VStr "FPR"]]
              :: map (roc_table_line fpr tpr thresh) (seq 0 (length thresh))
         else []),
     Return [("AU_ROC", area); ("BestCutoff", nth k thresh 0%Q);
             ("BestTpr", nth k tpr 0%Q); ("BestFpr", nth k fpr 0%Q)]).
Proof.
  intros predictions labels allCutoffsFlg fpr tpr thresh area k
    Hlen Hroc Hft Htt Hauc Hk Huniq.
  unfold GenerateAUC. rewrite Hlen, Nat.eqb_refl.
  change (upper "SS") with "SS". change (String.eqb "SS" "SS") with true.
  change (String.eqb "SS" "PR") with false.
  cbv beta iota delta [negb andb].
  rewrite bind_ret_l. cbv beta.
  change (String.eqb "SS" "SS") with true. cbv iota.
  rewrite Hroc.
  change (metric "roc_curve" [VVec labels; VVec predictions]
            (inr (fpr, tpr, thresh)))
    with ([EMetric "roc_curve" [VVec labels; VVec predictions]],
          @Return (vector * vector * vector) (fpr, tpr, thresh)).
  rewrite bind_pair. cbv beta iota.
  rewrite Hauc.
  change (metric "auc" [VVec fpr; VVec tpr] (inr area))
    with ([EMetric "auc" [VVec fpr; VVec tpr]], @Return Q area).
  rewrite bind_pair. cbv beta iota.
  unfold print. rewrite bind_emit.
  rewrite np_add_same_length
    by (unfold sq_dist; rewrite !length_map; exact Hft).
  rewrite bind_ret_l.
  destruct (map (fun p => (fst p + snd p)%Q)
              (combine (sq_dist fpr 0) (sq_dist tpr 1)))
    as [|x rest] eqn:Ed.
  { exfalso. destruct Hk as [Hk _].
    apply (f_equal (@length Q)) in Ed. unfold sq_dist in Ed.
    rewrite length_map, length_combine, !length_map, <- Hft, Nat.min_id in Ed.
    simpl in Ed. lia. }
  cbn [np_min]. rewrite bind_ret_l.
  assert (Hone : np_where_eq (x :: rest) (fold_left Qsmaller rest x) = [k]).
  { apply only_member; [apply NoDup_np_where_eq|].
    intros j. rewrite (in_minimisers fpr tpr x rest j Hft Ed).
    split; [apply Huniq|intros ->; exact Hk]. }
  rewrite Hone.
  destruct Hk as [Hkf _].
  rewrite (take_in_range tpr) by (intros i [<-|[]]; lia).
  rewrite bind_ret_l.
  rewrite (take_in_range fpr) by (intros i [<-|[]]; lia).
  rewrite bind_ret_l.
  rewrite (take_in_range thresh) by (intros i [<-|[]]; lia).
  rewrite bind_ret_l.
  cbn [map float_of_array]. rewrite !bind_ret_l.
  rewrite bind_emit.
  assert (Hcut :
    (if allCutoffsFlg
     then emit (EPrint [VFmt "%-7s %-6s %-5s"
                          [VStr "Thresh"; VStr "TPR"; VStr "FPR"]]) ;;;
          for_each (seq 0 (length thresh)) (fun i =>
            th <- index thresh i ;;
            tp <- index tpr i ;;
            fp <- index fpr i ;;
            emit (EPrint [VFmt "%-7.2f %-6.2f %-6.2f"
                            [VNum th; VNum tp; VNum fp]]))
     else ret tt) =
    ((if allCutoffsFlg
      then EPrint [VFmt "%-7s %-6s %-5s"
                     [VStr "Thresh"; VStr "TPR"; VStr "FPR"]]
           :: map (roc_table_line fpr tpr thresh) (seq 0 (length thresh))
      else []), Return tt)).
  { destruct allCutoffsFlg; [|reflexivity].
    rewrite bind_emit.
    rewrite (for_each_emits _ _ (roc_table_line fpr tpr thresh));
      [reflexivity|].
    intros i Hi. apply in_seq in Hi.
    rewrite (index_lt thresh i 0%Q) by lia. rewrite bind_ret_l.
    rewrite (index_lt tpr i 0%Q) by lia. rewrite bind_ret_l.
    rewrite (index_lt fpr i 0%Q) by lia. rewrite bind_ret_l.
    reflexivity. }
  rewrite Hcut, bind_pair. cbv beta iota.
  cbn [index nth_error]. rewrite !bind_ret_l.
  cbn [trace result fst snd ret app]. rewrite app_nil_r. reflexivity.
Qed.

(** X2.  With equal-length inputs, an exception raised by the library while
    it builds the curve ends the call unchanged: the curve is the only metric
    asked for, and nothing is printed but the announcement of the default
    curve, when the type is neither 'SS' nor 'PR'. *)
Theorem GenerateAUC_curve_failure :
  forall (predictions labels : vector) aucType plotFlg allCutoffsFlg e,
    length predictions = length labels ->
    (if upper aucType =? "PR"
     then precision_recall_curve (Some labels) predictions = inl e
     else roc_curve labels predictions = inl e) ->
    let run := GenerateAUC predictions labels aucType plotFlg allCutoffsFlg in
    result run = Raise (LibraryError e)
    /\ printed (trace run) =
       (if (upper aucType =? "SS") || (upper aucType =? "PR") then []
        else [[VStr "Drawing ROC curve with Sensitivity/Specificity"]])
    /\ metric_calls (trace run) =
       [(if upper aucType =? "PR" then "precision_recall_curve"
         else "roc_curve", [VVec labels; VVec predictions])].
Proof.
  intros predictions labels aucType plotFlg allCutoffsFlg e Hlen Hfail run.
  unfold run, GenerateAUC. rewrite Hlen, Nat.eqb_refl.
  cbv beta iota delta [negb].
  destruct (upper aucType =? "SS") eqn:Ess.
  - apply String.eqb_eq in Ess. rewrite Ess in *.
    change (String.eqb "SS" "PR") with false in *.
    cbv beta iota delta [negb andb orb]. rewrite bind_ret_l.
    change (String.eqb "SS" "SS") with true. cbv iota.
    rewrite Hfail. repeat split.
  - destruct (upper aucType =? "PR") eqn:Epr.
    + cbv beta iota delta [negb andb orb]. rewrite bind_ret_l.
      cbv beta. rewrite Ess. cbv iota. rewrite Hfail. repeat split.
    + cbv beta iota delta [negb andb orb].
      unfold print. rewrite bind_assoc, bind_emit, bind_ret_l.
      change (String.eqb "SS" "SS") with true. cbv iota.
      rewrite Hfail. repeat split.
Qed.

End Curve_output.

(** ** clfreport: the feature importances *)

Section Clfreport_importances.
Context {L : Library}.

(** X15.  A run of [clfreport] that returns has written feature importances
    exactly when it returns the triple with the estimator, and then once:
    those of the returned estimator when it has them, those of its
    [best_estimator_] otherwise, together with [col_list].  A run that
    returns anything else has written none. *)
Theorem clfreport_feature_importances :
  forall modeltype debug devcheck algo X_train y_train X_test y_test param
         cores tune use_saved_model col_list,
    let run :=
      clfreport modeltype debug devcheck algo X_train y_train X_test y_test
        param cores tune use_saved_model col_list in
    forall v, result run = Return v ->
      importances_written (trace run) =
      match v with
      | RetPredAucClf _ _ clf =>
        [(if hasattr clf "feature_importances_"
          then feature_importances_ clf
          else feature_importances_ (best_estimator_ clf), col_list)]
      | _ => []
      end.
Proof.
  intros until col_list. intros run.
  change (post run (fun t r =>
    forall v, r = Return v ->
      importances_written t =
      match v with
      | RetPredAucClf _ _ clf =>
        [(if hasattr clf "feature_importances_"
          then feature_importances_ clf
          else feature_importances_ (best_estimator_ clf), col_list)]
      | _ => []
      end)).
  unfold run, clfreport.
  wp; returned; simpl;
    repeat match goal with
           | H : _ = true |- _ => rewrite H
           | H : _ = false |- _ => rewrite H
           end;
    reflexivity.
Qed.

End Clfreport_importances.

(** ** More runs on concrete inputs *)

Lemma clean_nearest : nearest_corner clean_fpr clean_tpr 2.
Proof.
  split; [simpl; lia|].
  intros j Hj. simpl in Hj.
  (destruct j as [|[|[|[|[|j]]]]]; [| | | | |lia]);
    apply Qle_bool_iff; reflexivity.
Defined.

Lemma clean_nearest_only j : nearest_corner clean_fpr clean_tpr j -> j = 2.
Proof.
  intros [Hj Hmin]. simpl in Hj. specialize (Hmin 2 ltac:(simpl; lia)).
  apply Qle_bool_iff in Hmin.
  (destruct j as [|[|[|[|[|j]]]]]; [| | | | |lia]);
    try reflexivity; discriminate Hmin.
Defined.

Lemma GenerateAUC_curve_failure_witness :
  result (@GenerateAUC sample_library [1 # 2; 1 # 3]%Q [1; 1]%Q "roc" true
            true) =
  Raise (LibraryError "Only one class present in y_true").
Proof.
  apply (proj1 (GenerateAUC_curve_failure (L := sample_library)
                  [1 # 2; 1 # 3]%Q [1; 1]%Q "roc" true true
                  "Only one class present in y_true" eq_refl eq_refl)).
Defined.

Lemma GenerateAUC_SS_output_witness :
  result (@GenerateAUC sample_library tie_scores clean_labels "SS" false
            true) =
  Return [("AU_ROC", trapezoid clean_fpr clean_tpr); ("BestCutoff", 8 # 10);
          ("BestTpr", 2 # 2); ("BestFpr", 0 # 2)]%Q
  /\ length (trace (@GenerateAUC sample_library tie_scores clean_labels "SS"
                      false true)) = 10.
Proof.
  rewrite (GenerateAUC_SS_output (L := sample_library) tie_scores
             clean_labels true clean_fpr clean_tpr tie_thresh
             (trapezoid clean_fpr clean_tpr) 2
             eq_refl eq_refl eq_refl eq_refl eq_refl
             clean_nearest clean_nearest_only).
  split; reflexivity.
Defined.

Lemma sample_pr_nearest : nearest_pr [1; 1]%Q [1; 0]%Q 0.
Proof.
  split; [simpl; lia|].
  intros j Hj. simpl in Hj.
  (destruct j as [|[|j]]; [| |lia]); apply Qle_bool_iff; reflexivity.
Defined.

Lemma sample_pr_nearest_only j : nearest_pr [1; 1]%Q [1; 0]%Q j -> j = 0.
Proof.
  intros [Hj Hmin]. simpl in Hj. specialize (Hmin 0 ltac:(simpl; lia)).
  apply Qle_bool_iff in Hmin.
  (destruct j as [|[|j]]; [| |lia]); try reflexivity; discriminate Hmin.
Defined.

Lemma GenerateAUC_PR_best_cutoff_witness :
  result (@GenerateAUC sample_library tie_scores clean_labels "PR" false
            true) =
  Return [("AU_PR", 1 # 2); ("BestCutoff", 1 # 2); ("BestPrecision", 1);
          ("BestRecall", 1)]%Q.
Proof.
  refine (proj2 (proj2 (GenerateAUC_PR_best_cutoff (L := sample_library)
                          tie_scores clean_labels false true
                          [1; 1]%Q [1; 0]%Q [1 # 2]%Q (1 # 2)%Q
                          eq_refl eq_refl eq_refl eq_refl eq_refl))
            0 sample_pr_nearest _ sample_pr_nearest_only _).
  - simpl. lia.
  - reflexivity.
Defined.

Lemma clfreport_classification_yesdev_witness :
  exists proba roc_auc,
    @predict_proba_value sample_library
      (Fitted (Supplied "forest") X3 [1; 0; 1]%Q) X2 = inr proba
    /\ @roc_auc_score sample_library (Some [1; 0]%Q)
         (map (fun row => nth 1 row 0%Q) proba) = inr roc_auc
    /\ result (@clfreport sample_library "classification" false "yesdev"
                 (Supplied "forest") X3 [1; 0; 1]%Q X2 (Some [1; 0]%Q) None 4
                 false false None) =
       Return (RetPredAucClf (Some (map (fun row => nth 1 row 0%Q) proba))
                 roc_auc (Fitted (Supplied "forest") X3 [1; 0; 1]%Q)).
Proof.
  pose proof (proj1 (clfreport_classification_yesdev (L := sample_library)
                       false (Supplied "forest") X3 [1; 0; 1]%Q X2
                       (Some [1; 0]%Q) None 4 false false None)) as H.
  destruct (result (@clfreport sample_library "classification" false "yesdev"
                      (Supplied "forest") X3 [1; 0; 1]%Q X2 (Some [1; 0]%Q)
                      None 4 false false None)) as [v|e] eqn:Hr.
  - destruct (H v eq_refl) as (proba & roc_auc & Hproba & Hroc & Hv).
    exists proba, roc_auc. repeat split; [exact Hproba|exact Hroc|].
    rewrite Hv. reflexivity.
  - vm_compute in Hr. discriminate Hr.
Defined.

Lemma clfreport_yesdev_unknown_modeltype_witness :
  "ranking" <> "classification" /\ "ranking" <> "regression"
  /\ result (@clfreport sample_library "ranking" false "yesdev"
               LinearRegression X3 [1; 2; 3]%Q X2 None None 4 false false
               None) = Raise (UnboundLocalError "roc_auc").
Proof.
  split; [discriminate|]. split; [discriminate|].
  apply (proj2 (proj2 (clfreport_yesdev_unknown_modeltype
                         (L := sample_library) "ranking" false
                         LinearRegression X3 [1; 2; 3]%Q X2 None None 4 false
                         false None ltac:(discriminate) ltac:(discriminate))));
    reflexivity.
Defined.

Lemma clfreport_fit_failure_witness :
  result (@clfreport strict_library "regression" false "notdev"
            LinearRegression X3 [1; 2]%Q X2 None None 4 false false None) =
  Raise (LibraryError
           "Found input variables with inconsistent numbers of samples")
  /\ pickle_writes
       (trace (@clfreport strict_library "regression" false "notdev"
                 LinearRegression X3 [1; 2]%Q X2 None None 4 false false
                 None)) = [].
Proof.
  destruct (clfreport_fit_failure (L := strict_library) "regression" false
              "notdev" LinearRegression X3 [1; 2]%Q X2 None None 4 false
              false None
              "Found input variables with inconsistent numbers of samples"
              eq_refl (or_intror (conj eq_refl eq_refl)))
    as (Hres & _ & _ & Hw).
  split; assumption.
Defined.

Lemma clfreport_notdev_value_witness :
  exists clf y_pred,
    clf = Fitted LinearRegression X3 [1; 2; 3]%Q
    /\ @predict_value sample_library clf X2 = inr y_pred
    /\ result (@clfreport sample_library "regression" true "notdev"
                 LinearRegression X3 [1; 2; 3]%Q X2 None None 4 true false
                 None) = Return (RetPred (Some y_pred)).
Proof.
  destruct (proj2 (clfreport_notdev_value (L := sample_library) "regression"
                     true LinearRegression X3 [1; 2; 3]%Q X2 None None 4 true
                     false None) _ eq_refl)
    as (clf & Hclf & [(Hm & _) | [(_ & y_pred & Hp & Hv) | (_ & Hm & _)]]).
  - discriminate Hm.
  - exists clf, y_pred. repeat split; [exact Hclf|exact Hp|].
    rewrite <- Hv. reflexivity.
  - exfalso. apply Hm. reflexivity.
Defined.

Lemma clfreport_notdev_round_trip_witness :
  result (@clfreport sample_library "regression" false "notdev"
            (Supplied "forest") X3 [1; 2; 3]%Q X2 None None 4 false true
            None) =
  result (@clfreport sample_library "regression" true "notdev"
            LinearRegression no_data [] X2 None None 4 false false None).
Proof.
  apply (clfreport_notdev_round_trip (L := sample_library)); reflexivity.
Defined.

Lemma find_top_three_factors_unknown_model_type_witness :
  "ranking" <> "classification" /\ "ranking" <> "regression"
  /\ result (@find_top_three_factors sample_library true X3 [1; 2; 3]%Q X2
               "ranking" false) = Raise (AttributeError "coef_").
Proof.
  split; [discriminate|]. split; [discriminate|].
  apply (proj1 (find_top_three_factors_unknown_model_type
                  (L := sample_library) true X3 [1; 2; 3]%Q X2 "ranking"
                  ltac:(discriminate) ltac:(discriminate))).
Defined.





Lemma clfreport_feature_importances_witness :
  importances_written
    (trace (@clfreport sample_library "classification" false "yesdev"
              (Supplied "forest") X3 [1; 0; 1]%Q X2 (Some [1; 0]%Q) None 4
              false false (Some ["age"; "bmi"; "a1c"]))) =
  [([], Some ["age"; "bmi"; "a1c"])].
Proof.
  exact (clfreport_feature_importances (L := sample_library) "classification"
           false "yesdev" (Supplied "forest") X3 [1; 0; 1]%Q X2
           (Some [1; 0]%Q) None 4 false false (Some ["age"; "bmi"; "a1c"])
           _ eq_refl).
Defined.
